(** * Wallpaper SaaS backend: authorization and entitlement gating

    A shallow embedding of [src/main.py] (the FastAPI handlers) and of the
    parts of its collaborators the handlers rely on: Python dictionaries and
    truthiness, BSON [ObjectId], the MongoDB collections [db["user"]] and
    [db["wallpaper"]], and the [python-jose] token codec.

    Conventions.
    - A Python [dict] (a MongoDB document, a token payload, a JSON response)
      is a [gmap string value].
    - A [datetime] is the number of microseconds since the Unix epoch (UTC),
      a [timedelta] a number of microseconds.  All the reads of the clock
      made while one request is served return the same instant [now].
    - A handler returns a [result]: a value, an [HTTPException] (what the
      client sees as that status), or another exception that nothing catches
      (what the framework turns into a 500).  A handler that writes to the
      database also returns the database it leaves behind.
    - A collection is the list of its documents in natural (insertion)
      order, each one paired with its [_id].  The handle [db] that main.py
      imports from its [database] module is the connected PyMongo database;
      here it is the state the handlers read and return. *)

From Stdlib Require Import ZArith NArith String Ascii List Bool Lia.
From stdpp Require Import base option list strings gmap fin_maps pretty.

Open Scope Z_scope.
Open Scope string_scope.
Open Scope list_scope.

(** ** Python values *)

Module Py.

(** [bson.ObjectId]: twelve bytes, read as a big-endian number below 2^96.
    (The constructor also accepts text that holds fewer bytes, see
    [ObjectId_of_str]; such an id is numbered from 2^96 on, apart from the
    ids of twelve bytes.) *)
Definition ObjectId := N.

Inductive value : Type :=
| VNone
| VBool (b : bool)
| VInt (n : Z)
| VStr (s : string)
| VDatetime (t : Z)
| VObjectId (o : ObjectId)
| VList (l : list string).

#[global] Instance value_eq_dec : EqDecision value.
Proof. solve_decision. Defined.

#[global] Instance value_inhabited : Inhabited value := populate VNone.

(** Truth value of an object: [bool(v)], and what [if v:], [not v] and
    [v or w] test. *)
Definition truthy (v : value) : bool :=
  match v with
  | VNone => false
  | VBool b => b
  | VInt n => negb (Z.eqb n 0)
  | VStr s => negb (String.eqb s "")
  | VDatetime _ => true
  | VObjectId _ => true
  | VList l => match l with [] => false | _ => true end
  end.

(** [a or b] *)
Definition py_or (a b : value) : value := if truthy a then a else b.

(** [d.get(k)] and [d.get(k, default)] *)
Definition get (d : gmap string value) (k : string) : value :=
  default VNone (d !! k).

Definition get_default (d : gmap string value) (k : string) (dflt : value) : value :=
  default dflt (d !! k).

(** An [Optional[str]] argument used as a condition. *)
Definition truthy_opt (o : option string) : bool :=
  match o with
  | None => false
  | Some s => negb (String.eqb s "")
  end.

(** [s.partition(sep)] for a one-character separator. *)
Fixpoint partition (sep : ascii) (s : string) : string * string * string :=
  match s with
  | EmptyString => ("", "", "")
  | String c s' =>
      if Ascii.eqb c sep then ("", String sep "", s')
      else let '(before, found, after) := partition sep s' in
           (String c before, found, after)
  end.

(** [s.lower()], on the ASCII letters. *)
Definition lower_ascii (c : ascii) : ascii :=
  let n := N_of_ascii c in
  if ((65 <=? n) && (n <=? 90))%N then ascii_of_N (n + 32) else c.

Fixpoint lower (s : string) : string :=
  match s with
  | EmptyString => EmptyString
  | String c s' => String (lower_ascii c) (lower s')
  end.

End Py.

Import Py.

(** ** BSON object ids *)

Module Bson.

Definition hex_char (d : N) : ascii :=
  if (d <? 10)%N then ascii_of_N (48 + d) else ascii_of_N (87 + d).

Fixpoint hex_digits (k : nat) (n : N) (acc : string) : string :=
  match k with
  | O => acc
  | S k' => hex_digits k' (n / 16)%N (String (hex_char (n mod 16)%N) acc)
  end.

(** [str(oid)] for an id of twelve bytes, as every stored and every
    generated id is: its 24 lower-case hexadecimal digits. *)
Definition ObjectId_str (o : ObjectId) : string := hex_digits 24 o "".

Definition hex_value (c : ascii) : option N :=
  let n := N_of_ascii c in
  if ((48 <=? n) && (n <=? 57))%N then Some (n - 48)%N
  else if ((97 <=? n) && (n <=? 102))%N then Some (n - 87)%N
  else if ((65 <=? n) && (n <=? 70))%N then Some (n - 55)%N
  else None.

Fixpoint fromhex (s : string) (acc : N) : option N :=
  match s with
  | EmptyString => Some acc
  | String c s' =>
      match hex_value c with
      | Some d => fromhex s' (16 * acc + d)%N
      | None => None
      end
  end.

(** The white space that [bytes.fromhex] skips: space, tab, line feed,
    vertical tab, form feed and carriage return. *)
Definition is_space (c : ascii) : bool :=
  let n := N_of_ascii c in
  ((9 <=? n) && (n <=? 13))%N || (n =? 32)%N.

(** [bytes.fromhex(s)]: pairs of hexadecimal digits, with white space
    skipped before a pair (not inside one).  [count] and [acc] are the
    number of the bytes read so far and their value as a big-endian
    number; [None] is the [ValueError]. *)
Fixpoint bytes_fromhex (s : string) (count : nat) (acc : N) : option (nat * N) :=
  match s with
  | EmptyString => Some (count, acc)
  | String c s' =>
      if is_space c then bytes_fromhex s' count acc
      else
        match hex_value c, s' with
        | Some top, String c' s'' =>
            match hex_value c' with
            | Some bot => bytes_fromhex s'' (S count) (256 * acc + 16 * top + bot)%N
            | None => None
            end
        | _, _ => None
        end
  end.

(** The id made of [count] bytes of value [n]: the number itself for twelve
    bytes, and a number from 2^96 on, which tells the byte strings apart,
    for fewer. *)
Definition ObjectId_of_bytes (count : nat) (n : N) : ObjectId :=
  if Nat.eqb count 12 then n else (2 ^ 96 + 256 ^ N.of_nat count + n)%N.

(** [ObjectId(s)] for a string [s]: the bytes that [bytes.fromhex] reads in
    a string of 24 characters, and [InvalidId] ([None] here) for any other
    string.  24 hexadecimal digits give the twelve bytes of a proper id;
    with white space among the 24 characters the bytes are fewer, and the
    result is still an [ObjectId], which is the [_id] of no stored
    document. *)
Definition ObjectId_of_str (s : string) : option ObjectId :=
  if Nat.eqb (String.length s) 24 then
    match bytes_fromhex s 0 0%N with
    | Some (count, n) => Some (ObjectId_of_bytes count n)
    | None => None
    end
  else None.

End Bson.

Import Bson.

(** ** Outcomes of a handler *)

Inductive result (A : Type) : Type :=
| Ok (a : A)
| HTTPException (status_code : Z) (detail : string)
| Raised (exn : string).

Arguments Ok {A} a.
Arguments HTTPException {A} status_code detail.
Arguments Raised {A} exn.

#[global] Instance result_eq_dec {A : Type} `{EqDecision A} :
  EqDecision (result A).
Proof. solve_decision. Defined.

#[global] Instance result_bind : MBind result := fun A B k r =>
  match r with
  | Ok a => k a
  | HTTPException c d => HTTPException c d
  | Raised e => Raised e
  end.

#[global] Instance result_ret : MRet result := fun A a => Ok a.

#[global] Instance result_fmap : FMap result := fun A B f r =>
  match r with
  | Ok a => Ok (f a)
  | HTTPException c d => HTTPException c d
  | Raised e => Raised e
  end.

(** [ObjectId(v)] as the handlers call it.  A string is parsed, anything
    that is neither a string nor an object id is a [TypeError].  (Python's
    [ObjectId(None)] would make a fresh id; every call below is guarded
    against [None].) *)
Definition ObjectId_new (v : value) : result ObjectId :=
  match v with
  | VStr s =>
      match ObjectId_of_str s with
      | Some o => Ok o
      | None => Raised "InvalidId"
      end
  | VObjectId o => Ok o
  | _ => Raised "TypeError"
  end.

(** ** MongoDB collections *)

Module Mongo.

(** A stored document: its [_id] and its other fields. *)
Definition stored : Type := ObjectId * gmap string value.

(** The dictionary the driver hands out for a stored document. *)
Definition to_py (d : stored) : gmap string value :=
  <["_id" := VObjectId (fst d)]> (snd d).

(** A filter [{k1: v1, ...}]: every listed field is present and equal.
    (The fields the handlers filter on hold an object id or a string, never
    an array.) *)
Definition matches (q : list (string * value)) (d : stored) : bool :=
  forallb (fun kv => bool_decide (to_py d !! fst kv = Some (snd kv))) q.

(** [find(q)], in natural order. *)
Definition find (q : list (string * value)) (c : list stored) : list stored :=
  List.filter (matches q) c.

(** [find_one(q)]: the first match, or [None]. *)
Fixpoint find_one (q : list (string * value)) (c : list stored)
  : option (gmap string value) :=
  match c with
  | [] => None
  | d :: c' => if matches q d then Some (to_py d) else find_one q c'
  end.

(** [insert_one(doc)] with the fresh id the driver generated for it.  The
    unique index on [_id] refuses an id already in the collection
    ([DuplicateKeyError], [None] here). *)
Definition insert_one (doc : gmap string value) (new_id : ObjectId)
    (c : list stored) : option (list stored) :=
  if existsb (fun d => N.eqb (fst d) new_id) c then None
  else Some (c ++ [(new_id, doc)]).

(** [update_one(q, {"$set": fields})]: the first match gets the fields. *)
Fixpoint update_one_set (q : list (string * value))
    (fields : gmap string value) (c : list stored) : list stored :=
  match c with
  | [] => []
  | d :: c' =>
      if matches q d then (fst d, fields ∪ snd d) :: c'
      else d :: update_one_set q fields c'
  end.

(** [$inc] on one document: a missing field counts as 0, a field that is
    not a number is a write error. *)
Definition inc_field (k : string) (amount : Z) (d : stored) : option stored :=
  match snd d !! k with
  | None => Some (fst d, <[k := VInt amount]> (snd d))
  | Some (VInt n) => Some (fst d, <[k := VInt (n + amount)]> (snd d))
  | Some _ => None
  end.

(** [update_one(q, {"$inc": {k: amount}})]: [None] is the write error. *)
Fixpoint update_one_inc (q : list (string * value)) (k : string) (amount : Z)
    (c : list stored) : option (list stored) :=
  match c with
  | [] => Some []
  | d :: c' =>
      if matches q d then
        match inc_field k amount d with
        | Some d' => Some (d' :: c')
        | None => None
        end
      else
        match update_one_inc q k amount c' with
        | Some c'' => Some (d :: c'')
        | None => None
        end
  end.

End Mongo.

Import Mongo.

(** The two collections the handlers use. *)
Record DB : Type := mkDB {
  user : list stored;
  wallpaper : list stored
}.

#[global] Instance DB_eq_dec : EqDecision DB.
Proof. solve_decision. Defined.

Definition set_user (db : DB) (c : list stored) : DB :=
  {| user := c; wallpaper := wallpaper db |}.

Definition set_wallpaper (db : DB) (c : list stored) : DB :=
  {| user := user db; wallpaper := c |}.

(** ** Request bodies (the pydantic models of main.py) *)

Module RegisterRequest.
Record t : Type := mk { name : string; email : string; password : string }.
End RegisterRequest.

Module LoginRequest.
Record t : Type := mk { email : string; password : string }.
End LoginRequest.

Module SubscriptionRequest.
Record t : Type := mk { plan : string }.
End SubscriptionRequest.

Module WallpaperCreate.
Record t : Type := mk {
  title : string;
  category : string;
  image_url : string;
  thumbnail_url : option string;
  resolution : string;
  tags : list string;
  is_live : bool;
  author : option string
}.

Definition opt_str (o : option string) : value :=
  match o with
  | Some s => VStr s
  | None => VNone
  end.

(** [body.model_dump()] *)
Definition model_dump (b : t) : gmap string value :=
  <["title" := VStr (title b)]>
  (<["category" := VStr (category b)]>
  (<["image_url" := VStr (image_url b)]>
  (<["thumbnail_url" := opt_str (thumbnail_url b)]>
  (<["resolution" := VStr (resolution b)]>
  (<["tags" := VList (tags b)]>
  (<["is_live" := VBool (is_live b)]>
  (<["author" := opt_str (author b)]> ∅))))))).
End WallpaperCreate.

(** ** Collaborators

    What the handlers call and main.py does not define: the token codec of
    python-jose, the password context of passlib, the ordering and
    truncation of a MongoDB cursor, and [str()] on the values whose text the
    handlers never inspect. *)

(** What [jwt.decode] does: it returns the payload, raises [JWTError], or
    lets another exception through (python-jose catches the [ValueError] of
    the JSON parser only: on a header nested deeper than the parser
    recurses, the [RecursionError] comes out as it is). *)
Inductive jwt_outcome : Type :=
| Decoded (payload : gmap string value)
| JWTError
| OtherError (exn : string).

#[global] Instance jwt_outcome_eq_dec : EqDecision jwt_outcome.
Proof. solve_decision. Defined.

(** What [pwd_context.verify] does on a hash that is a string: it answers,
    or raises an exception of passlib (an [UnknownHashError] for a hash it
    does not recognise). *)
Inductive verify_outcome : Type :=
| Verified (b : bool)
| PasslibError (exn : string).

Record Env : Type := mkEnv {
  (** [os.getenv("JWT_SECRET", "supersecret-key-change")], read once *)
  SECRET_KEY : string;
  (** [jwt.encode(claims, key, algorithm=alg)] *)
  jwt_encode : gmap string value -> string -> string -> string;
  (** [jwt.decode(token, key, algorithms=algs)] at the instant [now]:
      the payload, a [JWTError] (bad segments, bad signature, elapsed
      [exp], malformed claims), or an exception of another class *)
  jwt_decode : string -> string -> list string -> Z -> jwt_outcome;
  (** [pwd_context.hash], and [pwd_context.verify] on a hash that is a
      string *)
  pwd_context_hash : string -> string;
  pwd_context_verify : string -> string -> verify_outcome;
  (** [cursor.sort(key, direction).limit(n)] *)
  cursor_sort_limit : string -> Z -> Z -> list stored -> list stored;
  (** [str(v)] for a datetime or a list *)
  str_other : value -> string
}.

(** ** Dates *)

Definition timedelta_minutes (m : Z) : Z := m * 60 * 1000000.
Definition timedelta_days (d : Z) : Z := d * 86400 * 1000000.

(** The whole seconds of a datetime: [timegm(t.utctimetuple())]. *)
Definition timestamp (t : Z) : Z := t / 1000000.

(** ** main.py *)

Section Main.

Context (E : Env).

Definition ALGORITHM : string := "HS256".
Definition ACCESS_TOKEN_EXPIRE_MINUTES : Z := 60 * 24 * 7.

(** [str(v)] *)
Definition str (v : value) : string :=
  match v with
  | VNone => "None"
  | VBool true => "True"
  | VBool false => "False"
  | VInt n => pretty n
  | VStr s => s
  | VObjectId o => ObjectId_str o
  | VDatetime _ | VList _ => str_other E v
  end.

(** [d[k]] *)
Definition subscript (d : gmap string value) (k : string) : result value :=
  match d !! k with
  | Some v => Ok v
  | None => Raised "KeyError"
  end.

Definition hash_password (password : string) : string :=
  pwd_context_hash E password.

(** [pwd_context.verify] answers [False] for the hash [None] and refuses
    with a [TypeError] a hash that is neither [None] nor a string. *)
Definition verify_password (plain_password : string) (hashed_password : value)
  : result bool :=
  match hashed_password with
  | VNone => Ok false
  | VStr hashed =>
      match pwd_context_verify E plain_password hashed with
      | Verified b => Ok b
      | PasslibError exn => Raised exn
      end
  | _ => Raised "TypeError"
  end.

(** A [timedelta] used as a condition: the zero duration is false. *)
Definition truthy_delta (d : option Z) : bool :=
  match d with
  | Some x => negb (Z.eqb x 0)
  | None => false
  end.

Definition create_access_token (data : gmap string value)
    (expires_delta : option Z) (now : Z) : string :=
  let to_encode := data in
  let expire :=
    now + (if truthy_delta expires_delta then default 0 expires_delta
           else timedelta_minutes ACCESS_TOKEN_EXPIRE_MINUTES) in
  let to_encode := <["exp" := VDatetime expire]> to_encode in
  jwt_encode E to_encode (SECRET_KEY E) ALGORITHM.

(** Lines 81-92 of [get_current_user]: from the [Authorization] header to
    the subject of the token. *)
Definition get_current_user_sub (authorization : option string) (now : Z)
  : result value :=
  if negb (truthy_opt authorization) then
    HTTPException 401 "Not authenticated"
  else
    let '(scheme, _, token) := partition " " (default "" authorization) in
    if negb (String.eqb (lower scheme) "bearer") || String.eqb token "" then
      HTTPException 401 "Invalid auth header"
    else
      match jwt_decode E token (SECRET_KEY E) [ALGORITHM] now with
      | Decoded payload =>
          let user_id := get payload "sub" in
          if bool_decide (user_id = VNone) then
            HTTPException 401 "Invalid token"
          else Ok user_id
      | JWTError => HTTPException 401 "Invalid token"
      | OtherError exn => Raised exn
      end.

(** Lines 94-100 of [get_current_user]: from the subject to the record. *)
Definition get_current_user_record (user_id : value) (db : DB)
  : result (gmap string value) :=
  oid ← ObjectId_new user_id;
  match find_one [("_id", VObjectId oid)] (user db) with
  | None => HTTPException 401 "User not found"
  | Some user =>
      id ← subscript user "_id";
      let user := <["id" := VStr (str id)]> user in
      let user := delete "_id" user in
      Ok user
  end.

Definition get_current_user (authorization : option string) (now : Z)
    (db : DB) : result (gmap string value) :=
  user_id ← get_current_user_sub authorization now;
  get_current_user_record user_id db.

(** *** Auth *)

Definition register (body : RegisterRequest.t) (now : Z) (new_id : ObjectId)
    (db : DB) : result (gmap string value) * DB :=
  match find_one [("email", VStr (RegisterRequest.email body))] (user db) with
  | Some _ => (HTTPException 400 "Email already registered", db)
  | None =>
      let doc : gmap string value :=
        <["name" := VStr (RegisterRequest.name body)]>
        (<["email" := VStr (RegisterRequest.email body)]>
        (<["password_hash" := VStr (hash_password (RegisterRequest.password body))]>
        (<["role" := VStr "user"]>
        (<["subscribed" := VBool false]>
        (<["plan" := VStr "free"]>
        (<["plan_ends_at" := VNone]>
        (<["created_at" := VDatetime now]>
        (<["updated_at" := VDatetime now]> ∅)))))))) in
      match insert_one doc new_id (user db) with
      | None => (Raised "DuplicateKeyError", db)
      | Some c =>
          let token :=
            create_access_token {[ "sub" := VStr (str (VObjectId new_id)) ]} None now in
          (Ok {[ "access_token" := VStr token ]}, set_user db c)
      end
  end.

Definition login (body : LoginRequest.t) (now : Z) (db : DB)
  : result (gmap string value) :=
  match find_one [("email", VStr (LoginRequest.email body))] (user db) with
  | None => HTTPException 401 "Invalid credentials"
  | Some user =>
      verified ← verify_password (LoginRequest.password body)
                   (get_default user "password_hash" (VStr ""));
      if negb verified then
        HTTPException 401 "Invalid credentials"
      else
        id ← subscript user "_id";
        let token :=
          create_access_token {[ "sub" := VStr (str id) ]} None now in
        Ok {[ "access_token" := VStr token ]}
  end.

Definition me (current_user : gmap string value) : result (gmap string value) :=
  Ok current_user.

(** *** Subscription *)

Definition subscribe (body : SubscriptionRequest.t)
    (current_user : gmap string value) (now : Z) (db : DB)
  : result (gmap string value) * DB :=
  let plan := SubscriptionRequest.plan body in
  if negb (existsb (String.eqb plan) ["free"; "pro"; "elite"]) then
    (HTTPException 400 "Invalid plan", db)
  else
    let subscribed := negb (String.eqb plan "free") in
    let ends_at := VNone in
    let ends_at :=
      if subscribed then VDatetime (now + timedelta_days 30) else ends_at in
    match id ← subscript current_user "id"; ObjectId_new id with
    | Ok oid =>
        let c :=
          update_one_set [("_id", VObjectId oid)]
            (<["plan" := VStr plan]>
            (<["subscribed" := VBool subscribed]>
            (<["plan_ends_at" := ends_at]>
            (<["updated_at" := VDatetime now]> ∅))))
            (user db) in
        (Ok (<["status" := VStr "ok"]>
            (<["plan" := VStr plan]>
            (<["subscribed" := VBool subscribed]>
            (<["plan_ends_at" := ends_at]> ∅)))),
         set_user db c)
    | HTTPException code detail => (HTTPException code detail, db)
    | Raised e => (Raised e, db)
    end.

(** *** Wallpapers *)

(** Lines 208-219 of [list_wallpapers]: the optional authentication. *)
Definition list_wallpapers_subscribed (authorization : option string)
    (now : Z) (db : DB) : bool :=
  let subscribed := false in
  if truthy_opt authorization then
    let '(_, _, token) := partition " " (default "" authorization) in
    match jwt_decode E token (SECRET_KEY E) [ALGORITHM] now with
    | Decoded payload =>
        let user_id := get payload "sub" in
        if truthy user_id then
          match ObjectId_new user_id with
          | Ok oid =>
              match find_one [("_id", VObjectId oid)] (user db) with
              | Some user => truthy (get user "subscribed")
              | None => subscribed
              end
          | _ => subscribed
          end
        else subscribed
    | JWTError => subscribed
    | OtherError _ => subscribed
    end
  else subscribed.

(** Lines 227-238 of [list_wallpapers]: the item shown for one wallpaper. *)
Definition list_wallpapers_item (subscribed : bool) (w : gmap string value)
  : result (gmap string value) :=
  id ← subscript w "_id";
  Ok (<["id" := VStr (str id)]>
     (<["title" := get w "title"]>
     (<["category" := get w "category"]>
     (<["resolution" := get w "resolution"]>
     (<["thumbnail_url" := py_or (get w "thumbnail_url") (get w "image_url")]>
     (<["is_live" := get_default w "is_live" (VBool false)]>
     (<["author" := get w "author"]>
     (<["downloads" := get_default w "downloads" (VInt 0)]>
     (<["image_url" :=
          if subscribed then get w "image_url"
          else VStr (str (get w "image_url") +:+ "?wm=1")]>
     (<["watermarked" := VBool (negb subscribed)]> ∅)))))))))).

(** The [for] loop over the cursor. *)
Fixpoint list_wallpapers_items (subscribed : bool) (cursor : list stored)
  : result (list (gmap string value)) :=
  match cursor with
  | [] => Ok []
  | w :: rest =>
      item ← list_wallpapers_item subscribed (to_py w);
      items ← list_wallpapers_items subscribed rest;
      Ok (item :: items)
  end.

(** The response of [list_wallpapers]. *)
Record listing : Type := mkListing {
  items : list (gmap string value);
  subscribed : bool
}.

Definition list_wallpapers (category : option string) (limit : Z)
    (authorization : option string) (now : Z) (db : DB) : result listing :=
  let subscribed := list_wallpapers_subscribed authorization now db in
  let query :=
    if truthy_opt category then [("category", VStr (default "" category))]
    else [] in
  let cursor :=
    cursor_sort_limit E "created_at" (-1) limit (find query (wallpaper db)) in
  items ← list_wallpapers_items subscribed cursor;
  Ok {| items := items; subscribed := subscribed |}.

Definition download_wallpaper (wallpaper_id : string)
    (current_user : gmap string value) (db : DB)
  : result (gmap string value) * DB :=
  match ObjectId_new (VStr wallpaper_id) with
  | Ok oid =>
      match find_one [("_id", VObjectId oid)] (wallpaper db) with
      | None => (HTTPException 404 "Wallpaper not found", db)
      | Some wp =>
          if negb (truthy (get current_user "subscribed")) then
            (HTTPException 402
               "Subscription required for full-resolution download", db)
          else
            match update_one_inc [("_id", VObjectId oid)] "downloads" 1
                    (wallpaper db) with
            | Some c => (Ok {[ "url" := get wp "image_url" ]}, set_wallpaper db c)
            | None => (Raised "WriteError", db)
            end
      end
  | HTTPException code detail => (HTTPException code detail, db)
  | Raised e => (Raised e, db)
  end.

(** *** Admin *)

Definition admin_create_wallpaper (body : WallpaperCreate.t)
    (current_user : gmap string value) (now : Z) (new_id : ObjectId) (db : DB)
  : result (gmap string value) * DB :=
  if negb (bool_decide (get current_user "role" = VStr "admin")) then
    (HTTPException 403 "Admin only", db)
  else
    let doc :=
      <["updated_at" := VDatetime now]>
      (<["created_at" := VDatetime now]>
      (<["downloads" := VInt 0]> (WallpaperCreate.model_dump body))) in
    match insert_one doc new_id (wallpaper db) with
    | None => (Raised "DuplicateKeyError", db)
    | Some c =>
        (* insert_one has added the key [_id] to [doc] *)
        let doc := <["_id" := VObjectId new_id]> doc in
        (Ok (doc ∪ {[ "id" := VStr (str (VObjectId new_id)) ]}),
         set_wallpaper db c)
    end.

Definition sample (title category image_url thumbnail_url : string)
    (tags : list string) : gmap string value :=
  <["title" := VStr title]>
  (<["category" := VStr category]>
  (<["image_url" := VStr image_url]>
  (<["thumbnail_url" := VStr thumbnail_url]>
  (<["tags" := VList tags]> ∅)))).

Definition samples : list (gmap string value) :=
  [ sample "Galactic Neon Wave" "scenery"
      "https://images.unsplash.com/photo-1500530855697-b586d89ba3ee"
      "https://images.unsplash.com/photo-1500530855697-b586d89ba3ee?w=1200"
      ["neon"; "galaxy"];
    sample "Mystic Forest" "nature"
      "https://images.unsplash.com/photo-1501785888041-af3ef285b470"
      "https://images.unsplash.com/photo-1501785888041-af3ef285b470?w=1200"
      ["forest"; "fog"];
    sample "City Night Drive" "scenery"
      "https://images.unsplash.com/photo-1508057198894-247b23fe5ade"
      "https://images.unsplash.com/photo-1508057198894-247b23fe5ade?w=1200"
      ["city"; "night"];
    sample "Anime Neon Alley" "anime"
      "https://images.unsplash.com/photo-1542396601-dca920ea2807"
      "https://images.unsplash.com/photo-1542396601-dca920ea2807?w=1200"
      ["anime"; "neon"] ].

(** The [for] loop of [seed_sample]; [new_id i] is the id the driver
    generates if the [i]-th sample is inserted. *)
Fixpoint seed_sample_loop (todo : list (gmap string value)) (i : nat)
    (now : Z) (new_id : nat -> ObjectId) (db : DB) : result unit * DB :=
  match todo with
  | [] => (Ok tt, db)
  | s :: rest =>
      match subscript s "title" with
      | Ok title =>
          match find_one [("title", title)] (wallpaper db) with
          | Some _ => seed_sample_loop rest (S i) now new_id db
          | None =>
              let doc :=
                <["updated_at" := VDatetime now]>
                (<["created_at" := VDatetime now]>
                (<["downloads" := VInt 0]>
                (<["is_live" := VBool false]>
                (<["resolution" := VStr "3840x2160"]> s)))) in
              match insert_one doc (new_id i) (wallpaper db) with
              | Some c =>
                  seed_sample_loop rest (S i) now new_id (set_wallpaper db c)
              | None => (Raised "DuplicateKeyError", db)
              end
          end
      | HTTPException code detail => (HTTPException code detail, db)
      | Raised e => (Raised e, db)
      end
  end.

Definition seed_sample (current_user : gmap string value) (now : Z)
    (new_id : nat -> ObjectId) (db : DB) : result (gmap string value) * DB :=
  if negb (bool_decide (get current_user "role" = VStr "admin")) then
    (HTTPException 403 "Admin only", db)
  else
    match seed_sample_loop samples 0 now new_id db with
    | (Ok _, db') => (Ok {[ "status" := VStr "ok" ]}, db')
    | (HTTPException code detail, db') => (HTTPException code detail, db')
    | (Raised e, db') => (Raised e, db')
    end.

End Main.

(** ** The API as a state machine *)

Inductive request : Type :=
| PostRegister (body : RegisterRequest.t) (new_id : ObjectId)
| PostLogin (body : LoginRequest.t)
| GetMe (authorization : option string)
| PostSubscribe (authorization : option string) (body : SubscriptionRequest.t)
| GetWallpapers (category : option string) (limit : Z)
    (authorization : option string)
| GetDownload (authorization : option string) (wallpaper_id : string)
| PostAdminWallpapers (authorization : option string)
    (body : WallpaperCreate.t) (new_id : ObjectId)
| PostAdminSeed (authorization : option string) (new_id : nat -> ObjectId).

Inductive response : Type :=
| Json (d : gmap string value)
| JsonListing (l : listing).

#[global] Instance listing_eq_dec : EqDecision listing.
Proof. solve_decision. Defined.

#[global] Instance response_eq_dec : EqDecision response.
Proof. solve_decision. Defined.

Section Api.

Context (E : Env).

(** [current_user: dict = Depends(get_current_user)]: the dependency is
    resolved first, and the handler runs only if it returned a user. *)
Definition depends {A : Type} (authorization : option string) (now : Z)
    (db : DB) (handler : gmap string value -> DB -> result A * DB)
  : result A * DB :=
  match get_current_user E authorization now db with
  | Ok current_user => handler current_user db
  | HTTPException code detail => (HTTPException code detail, db)
  | Raised e => (Raised e, db)
  end.

(** What FastAPI makes of the value that a handler returns.  Its
    [jsonable_encoder] encodes [None], booleans, numbers, strings, datetimes
    and lists; it has no encoding for an [ObjectId] and raises a
    [ValueError] on a dictionary that holds one (the client sees a 500).
    The handler has done its writes by then. *)
Definition jsonable (v : value) : bool :=
  match v with
  | VObjectId _ => false
  | _ => true
  end.

Definition jsonable_encoder (d : gmap string value)
  : result (gmap string value) :=
  if bool_decide (map_Forall (fun _ v => jsonable v = true) d) then Ok d
  else Raised "ValueError".

Definition json (r : result (gmap string value) * DB) : result response * DB :=
  (d ← fst r; d' ← jsonable_encoder d; Ok (Json d'), snd r).

Definition json_listing (r : result listing) : result response :=
  l ← r;
  if forallb (fun it => bool_decide (jsonable_encoder it = Ok it)) (items l)
  then Ok (JsonListing l) else Raised "ValueError".

(** [response_model=Token]: the value returned is validated against the
    model [Token] of main.py and answered as the model has it, with the
    [access_token], a string, and the [token_type], ["bearer"] unless the
    value gives another string. *)
Definition Token (r : result (gmap string value) * DB)
  : result (gmap string value) * DB :=
  (d ← fst r;
   match d !! "access_token", get_default d "token_type" (VStr "bearer") with
   | Some (VStr access_token), VStr token_type =>
       Ok (<["access_token" := VStr access_token]>
             {[ "token_type" := VStr token_type ]})
   | _, _ => Raised "ResponseValidationError"
   end,
   snd r).

Definition serve (req : request) (now : Z) (db : DB) : result response * DB :=
  match req with
  | PostRegister body new_id => json (Token (register E body now new_id db))
  | PostLogin body => json (Token (login E body now db, db))
  | GetMe authorization =>
      json (depends authorization now db (fun u db => (me u, db)))
  | PostSubscribe authorization body =>
      json (depends authorization now db (fun u db => subscribe body u now db))
  | GetWallpapers category limit authorization =>
      (json_listing (list_wallpapers E category limit authorization now db), db)
  | GetDownload authorization wallpaper_id =>
      json (depends authorization now db
              (fun u db => download_wallpaper wallpaper_id u db))
  | PostAdminWallpapers authorization body new_id =>
      json (depends authorization now db
              (fun u db => admin_create_wallpaper E body u now new_id db))
  | PostAdminSeed authorization new_id =>
      json (depends authorization now db
              (fun u db => seed_sample u now new_id db))
  end.

(** The database after a sequence of requests, each served at its instant. *)
Fixpoint run (reqs : list (request * Z)) (db : DB) : DB :=
  match reqs with
  | [] => db
  | (req, now) :: rest => run rest (snd (serve req now db))
  end.

End Api.

(** ** What the handlers assume of the token codec

    A token is never the empty string, and a token made for a subject and an
    expiry decodes, under the same key and until the expiry has passed, to
    the same subject and to the expiry in whole seconds. *)
Definition jose_roundtrip (E : Env) : Prop :=
  forall (sub : string) (exp : Z) (key : string) (now : Z),
    jwt_encode E (<["exp" := VDatetime exp]> {[ "sub" := VStr sub ]}) key "HS256"
      <> ""
    /\ (timestamp now <= timestamp exp ->
        jwt_decode E
          (jwt_encode E (<["exp" := VDatetime exp]> {[ "sub" := VStr sub ]})
             key "HS256")
          key ["HS256"] now
        = Decoded (<["exp" := VInt (timestamp exp)]> {[ "sub" := VStr sub ]})).

(** ** An executable environment

    Small stand-ins for the collaborators, to run the handlers on concrete
    requests: a token is the expiry (in seconds, as a self-delimiting binary
    numeral) followed by the subject.  A token that opens with a bracket
    stands for one whose header is nested deeper than the JSON parser
    recurses.  The hash of a password is the password after a dollar sign,
    and a hash without the dollar sign is not recognised. *)

Module Sim.

Fixpoint enc_pos (p : positive) : string :=
  match p with
  | xH => "."
  | xO p' => String "0" (enc_pos p')
  | xI p' => String "1" (enc_pos p')
  end.

Definition enc_Z (z : Z) : string :=
  match z with
  | Z0 => "z"
  | Zpos p => String "+" (enc_pos p)
  | Zneg p => String "-" (enc_pos p)
  end.

Fixpoint dec_pos (s : string) : option (positive * string) :=
  match s with
  | EmptyString => None
  | String c s' =>
      if Ascii.eqb c "." then Some (xH, s')
      else if Ascii.eqb c "0" then
        match dec_pos s' with Some (p, r) => Some (xO p, r) | None => None end
      else if Ascii.eqb c "1" then
        match dec_pos s' with Some (p, r) => Some (xI p, r) | None => None end
      else None
  end.

Definition dec_Z (s : string) : option (Z * string) :=
  match s with
  | EmptyString => None
  | String c s' =>
      if Ascii.eqb c "z" then Some (0, s')
      else if Ascii.eqb c "+" then
        match dec_pos s' with Some (p, r) => Some (Zpos p, r) | None => None end
      else if Ascii.eqb c "-" then
        match dec_pos s' with Some (p, r) => Some (Zneg p, r) | None => None end
      else None
  end.

Definition encode (claims : gmap string value) (key alg : string) : string :=
  match claims !! "exp", claims !! "sub" with
  | Some (VDatetime exp), Some (VStr sub) => enc_Z (timestamp exp) +:+ sub
  | _, _ => "?"
  end.

Definition nested (token : string) : bool :=
  match token with
  | String c _ => Ascii.eqb c "["
  | EmptyString => false
  end.

Definition decode (token key : string) (algs : list string) (now : Z)
  : jwt_outcome :=
  if nested token then OtherError "RecursionError"
  else
    match dec_Z token with
    | Some (exp, sub) =>
        if Z.ltb exp (timestamp now) then JWTError
        else Decoded (<["exp" := VInt exp]> {[ "sub" := VStr sub ]})
    | None => JWTError
    end.

Definition created_at (d : stored) : Z :=
  match snd d !! "created_at" with
  | Some (VDatetime t) => t
  | _ => 0
  end.

Fixpoint insert_desc (d : stored) (l : list stored) : list stored :=
  match l with
  | [] => [d]
  | x :: l' =>
      if Z.ltb (created_at x) (created_at d) then d :: l else x :: insert_desc d l'
  end.

Definition sort_limit (key : string) (direction limit : Z) (l : list stored)
  : list stored :=
  let sorted := fold_right insert_desc [] l in
  if Z.eqb limit 0 then sorted else firstn (Z.abs_nat limit) sorted.

Definition verify (password hashed : string) : verify_outcome :=
  match hashed with
  | String "$" _ => Verified (String.eqb ("$" +:+ password) hashed)
  | _ => PasslibError "UnknownHashError"
  end.

Definition env : Env :=
  {| SECRET_KEY := "supersecret-key-change";
     jwt_encode := encode;
     jwt_decode := decode;
     pwd_context_hash := fun p => "$" +:+ p;
     pwd_context_verify := verify;
     cursor_sort_limit := sort_limit;
     str_other := fun _ => "?" |}.

End Sim.

(** ** Vocabulary of the properties *)

(** [subscribed == (plan != "free")] on a stored user. *)
Definition user_invariant (d : stored) : Prop :=
  exists (b : bool) (plan : string),
    snd d !! "subscribed" = Some (VBool b)
    /\ snd d !! "plan" = Some (VStr plan)
    /\ b = negb (String.eqb plan "free").

(** The fields [subscribe] writes with [$set]. *)
Definition subscription_fields (plan : string) (now : Z) : gmap string value :=
  <["plan" := VStr plan]>
  (<["subscribed" := VBool (negb (String.eqb plan "free"))]>
  (<["plan_ends_at" :=
       if negb (String.eqb plan "free")
       then VDatetime (now + timedelta_days 30) else VNone]>
  (<["updated_at" := VDatetime now]> ∅))).

(** The driver generated an id that no document of the collection has. *)
Definition fresh (o : ObjectId) (c : list stored) : Prop :=
  existsb (fun d => N.eqb (fst d) o) c = false.

(** Every [_id] of the collection is a twelve-byte object id. *)
Definition object_ids (c : list stored) : Prop :=
  Forall (fun d => (fst d < 2 ^ 96)%N) c.

(** The counter of a wallpaper as the listing shows it:
    [w.get("downloads", 0)]. *)
Definition downloads (w : gmap string value) : value :=
  get_default w "downloads" (VInt 0).

(** The fields of the listed items, one per item. *)
Definition item_fields (k : string) (l : listing) : list (option value) :=
  (fun it : gmap string value => it !! k) <$> items l.

(** ** Concrete data *)

Definition day : Z := 86400 * 1000000.

Definition empty_db : DB := {| user := []; wallpaper := [] |}.

Definition bearer (token : string) : option string :=
  Some ("Bearer " +:+ token).

Definition alice : RegisterRequest.t :=
  RegisterRequest.mk "Alice" "a@x.com" "pw".

Definition alice_id : string := "000000000000000000000001".

(** Alice registers at instant 0 and gets the id 1. *)
Definition db_registered : DB := snd (register Sim.env alice 0 1%N empty_db).

(** The token Alice gets when she logs in at [now]. *)
Definition alice_token (now : Z) : string :=
  create_access_token Sim.env {[ "sub" := VStr alice_id ]} None now.

(** What [me] answers to Alice at instant 0. *)
Definition alice_me : gmap string value :=
  match fst (serve Sim.env (GetMe (bearer (alice_token 0))) 0 db_registered) with
  | Ok (Json u) => u
  | _ => ∅
  end.

(** She subscribes to [pro] at once: her plan ends on day 30. *)
Definition db_subscribed : DB :=
  snd (serve Sim.env
         (PostSubscribe (bearer (alice_token 0)) (SubscriptionRequest.mk "pro"))
         0 db_registered).

Definition neon_wave : stored :=
  (10%N,
   <["downloads" := VInt 0]>
     (<["created_at" := VDatetime 1]>
        (sample "Galactic Neon Wave" "scenery"
           "https://img.example/neon" "https://img.example/neon?w=1200"
           ["neon"]))).

Definition neon_wave_id : string := "00000000000000000000000a".

(** The catalogue holds one wallpaper. *)
Definition demo_db : DB := set_wallpaper db_subscribed [neon_wave].

(** Alice's stored record once she has subscribed. *)
Definition alice_stored : gmap string value :=
  default ∅ (find_one [("_id", VObjectId 1%N)] (user demo_db)).

(** Day 40: the plan ended ten days ago; Alice has logged in again. *)
Definition later : Z := 40 * day.

Definition demo_wallpaper : WallpaperCreate.t :=
  WallpaperCreate.mk "Mist" "nature" "https://img.example/mist" None
    "3840x2160" ["fog"] false None.

Definition demo_ids (i : nat) : ObjectId := N.of_nat (100 + i).

(** ** The categories

    [get_categories] reads and seeds a third collection, [db["category"]],
    which no other handler touches; it is modelled on that collection. *)

Definition category (slug title description : string) : gmap string value :=
  <["slug" := VStr slug]>
  (<["title" := VStr title]>
  (<["description" := VStr description]> ∅)).

Definition DEFAULT_CATEGORIES : list (gmap string value) :=
  [ category "anime" "Anime" "Stylized and cinematic anime art";
    category "nature" "Nature" "Forests, oceans, and beyond";
    category "scenery" "Scenery" "Landscapes and cityscapes";
    category "live" "Live Wallpapers" "Dynamic video wallpapers" ].

(** [update_one(q, {"$setOnInsert": fields}, upsert=True)]: a collection
    with a match is left alone; otherwise a document made of the fields of
    the filter and of [fields] is inserted under the id generated for it
    ([None] is the [DuplicateKeyError]). *)
Definition update_one_upsert (q : list (string * value))
    (fields : gmap string value) (new_id : ObjectId) (c : list stored)
  : option (list stored) :=
  if existsb (matches q) c then Some c
  else insert_one (fields ∪ list_to_map q) new_id c.

Section Categories.

Context (E : Env).

(** The seeding loop of [get_categories]; [new_id i] is the id generated
    if the [i]-th default category is inserted. *)
Fixpoint get_categories_seed (todo : list (gmap string value)) (i : nat)
    (new_id : nat -> ObjectId) (c : list stored) : result unit * list stored :=
  match todo with
  | [] => (Ok tt, c)
  | d :: rest =>
      match subscript d "slug" with
      | Ok slug =>
          match update_one_upsert [("slug", slug)] d (new_id i) c with
          | Some c' => get_categories_seed rest (S i) new_id c'
          | None => (Raised "DuplicateKeyError", c)
          end
      | HTTPException code detail => (HTTPException code detail, c)
      | Raised e => (Raised e, c)
      end
  end.

(** [c["id"] = str(c.pop("_id"))] *)
Definition get_categories_id (c : gmap string value)
  : result (gmap string value) :=
  id ← subscript c "_id";
  Ok (<["id" := VStr (str E id)]> (delete "_id" c)).

(** The second loop of [get_categories]. *)
Fixpoint get_categories_ids (cats : list (gmap string value))
  : result (list (gmap string value)) :=
  match cats with
  | [] => Ok []
  | c :: rest =>
      c' ← get_categories_id c;
      rest' ← get_categories_ids rest;
      Ok (c' :: rest')
  end.

Definition get_categories (new_id : nat -> ObjectId) (c : list stored)
  : result (list (gmap string value)) * list stored :=
  let seeded :=
    if Nat.eqb (length c) 0 then
      get_categories_seed DEFAULT_CATEGORIES 0 new_id c
    else (Ok tt, c) in
  match seeded with
  | (Ok _, c') => (get_categories_ids (to_py <$> find [] c'), c')
  | (HTTPException code detail, c') => (HTTPException code detail, c')
  | (Raised e, c') => (Raised e, c')
  end.

End Categories.

(** ** More vocabulary *)

(** The document [register] inserts. *)
Definition registration_doc (E : Env) (body : RegisterRequest.t) (now : Z)
  : gmap string value :=
  <["name" := VStr (RegisterRequest.name body)]>
  (<["email" := VStr (RegisterRequest.email body)]>
  (<["password_hash" := VStr (hash_password E (RegisterRequest.password body))]>
  (<["role" := VStr "user"]>
  (<["subscribed" := VBool false]>
  (<["plan" := VStr "free"]>
  (<["plan_ends_at" := VNone]>
  (<["created_at" := VDatetime now]>
  (<["updated_at" := VDatetime now]> ∅)))))))).

(** At most one stored user per address. *)
Definition unique_emails (c : list stored) : Prop :=
  forall e : string, (length (find [("email", VStr e)] c) <= 1)%nat.

(** What the handlers assume of the token codec about expiry: a token
    whose expiry second has passed is refused. *)
Definition jose_expiry (E : Env) : Prop :=
  forall (sub : string) (exp : Z) (key : string) (now : Z),
    timestamp exp < timestamp now ->
    jwt_decode E
      (jwt_encode E (<["exp" := VDatetime exp]> {[ "sub" := VStr sub ]})
         key "HS256")
      key ["HS256"] now
    = JWTError.

(** What the handlers assume of the password context: a password verifies
    against its own hash. *)
Definition passlib_verifies (E : Env) : Prop :=
  forall password : string,
    pwd_context_verify E password (pwd_context_hash E password)
    = Verified true.

(** The number of the white-space characters of a string. *)
Fixpoint spaces (s : string) : nat :=
  match s with
  | EmptyString => 0%nat
  | String c s' => ((if is_space c then 1 else 0) + spaces s')%nat
  end.

(** A string without the separator of the [Authorization] header. *)
Definition no_space (s : string) : Prop :=
  forall c, In c (list_ascii_of_string s) -> c <> " "%char.

(** More concrete data: a subscriber and an administrator as
    [get_current_user] would return them. *)
Definition subscriber : gmap string value :=
  <["subscribed" := VBool true]> alice_me.

Definition administrator : gmap string value :=
  <["role" := VStr "admin"]> alice_me.

(** Alice made an administrator, by hand in the store. *)
Definition db_admin : DB :=
  set_user demo_db
    ((fun d : stored => (fst d, <["role" := VStr "admin"]> (snd d)))
       <$> user demo_db).

(** Two users written by other means than [register]: one whose stored hash
    is [None], one whose hash the password context does not recognise. *)
Definition db_odd_hashes : DB :=
  set_user empty_db
    [ (7%N, <["email" := VStr "n@x.com"]> {[ "password_hash" := VNone ]});
      (8%N, <["email" := VStr "u@x.com"]> {[ "password_hash" := VStr "plain" ]}) ].

(** Every stored user has the role [user]. *)
Definition only_users (c : list stored) : Prop :=
  Forall (fun d => snd d !! "role" = Some (VStr "user")) c.

(** What the listing assumes of a cursor: sorting and truncating hand out
    documents of the result set only. *)
Definition cursor_selects (E : Env) : Prop :=
  forall (key : string) (direction limit : Z) (l : list stored) (d : stored),
    In d (cursor_sort_limit E key direction limit l) -> In d l.

(** What [get_categories] answers for a stored category. *)
Definition category_out (d : stored) : gmap string value :=
  <["id" := VStr (ObjectId_str (fst d))]> (delete "_id" (to_py d)).

(** The collection of categories once seeded with the ids [new_id 0], ...,
    [new_id 3]. *)
Definition seeded_categories (new_id : nat -> ObjectId) : list stored :=
  combine [new_id 0%nat; new_id 1%nat; new_id 2%nat; new_id 3%nat]
    DEFAULT_CATEGORIES.

(** The category of every stored document is a single value.  (An equality
    filter of the database also selects a document whose field is an array
    that holds the value; the handlers store no such category.) *)
Definition scalar_categories (c : list stored) : Prop :=
  Forall (fun d => forall l, snd d !! "category" <> Some (VList l)) c.


(** * Properties *)

(** ** The model at work *)

(** Closed equations are settled by running both sides. *)
Ltac by_evaluation :=
  match goal with
  | |- ?P => apply (bool_decide_unpack P); vm_compute; exact I
  end.

Example partition_bearer :
  partition " " "Bearer abc def" = ("Bearer", " ", "abc def").
Proof. reflexivity. Qed.

Example partition_no_space : partition " " "abc" = ("abc", "", "").
Proof. reflexivity. Qed.

Example lower_bearer : lower "BeaRer" = "bearer".
Proof. reflexivity. Qed.

Example ObjectId_str_ex : ObjectId_str 255%N = "0000000000000000000000ff".
Proof. reflexivity. Qed.

Example ObjectId_of_str_ex :
  ObjectId_of_str "0000000000000000000000FF" = Some 255%N.
Proof. reflexivity. Qed.

Example ObjectId_of_str_short : ObjectId_of_str "abc" = None.
Proof. reflexivity. Qed.

(** White space among the 24 characters: eight bytes, an id from 2^96 on. *)
Example ObjectId_of_str_space :
  ObjectId_of_str "00 00 00 00 00 00 00 01 " = Some (2 ^ 96 + 256 ^ 8 + 1)%N
  /\ ObjectId_of_str "0 000000000000000000000a" = None.
Proof. split; reflexivity. Qed.

Example sim_token :
  alice_token 5000000 = "+1010000101011100100.000000000000000000000001".
Proof. vm_compute. reflexivity. Qed.

(** Registration stores the record the handler builds. *)
Example registered_alice :
  user db_registered
  = [(1%N,
      <["name" := VStr "Alice"]>
      (<["email" := VStr "a@x.com"]>
      (<["password_hash" := VStr "$pw"]>
      (<["role" := VStr "user"]>
      (<["subscribed" := VBool false]>
      (<["plan" := VStr "free"]>
      (<["plan_ends_at" := VNone]>
      (<["created_at" := VDatetime 0]>
      (<["updated_at" := VDatetime 0]> ∅)))))))))].
Proof. by_evaluation. Qed.

(** A second registration with the same address is refused. *)
Example register_twice :
  register Sim.env alice 5 2%N db_registered
  = (HTTPException 400 "Email already registered", db_registered).
Proof. by_evaluation. Qed.

(** A token is good for seven days and refused afterwards. *)
Example token_expires :
  get_current_user_sub Sim.env (bearer (alice_token 0)) (7 * day)
    = Ok (VStr alice_id)
  /\ get_current_user_sub Sim.env (bearer (alice_token 0)) (7 * day + 1000000)
    = HTTPException 401 "Invalid token".
Proof. split; vm_compute; reflexivity. Qed.

(** ** Object ids *)

Lemma hex_digits_length (k : nat) (n : N) (acc : string) :
  String.length (hex_digits k n acc) = (k + String.length acc)%nat.
Proof.
  revert n acc. induction k as [|k IH]; intros n acc; simpl; [reflexivity|].
  rewrite IH. simpl. lia.
Qed.

Lemma hex_value_hex_char (d : N) :
  (d < 16)%N -> hex_value (hex_char d) = Some d.
Proof.
  intros Hd. destruct d as [|p]; [reflexivity|].
  do 4 (destruct p as [p|p|]; try reflexivity; try lia).
Qed.

Lemma fromhex_hex_digits (k : nat) (n : N) (s : string) (a : N) :
  fromhex (hex_digits k n s) a
  = fromhex s (a * 16 ^ N.of_nat k + n mod 16 ^ N.of_nat k)%N.
Proof.
  revert n s a. induction k as [|k IH]; intros n s a.
  - simpl. rewrite N.mod_1_r. f_equal. lia.
  - cbn [hex_digits]. rewrite IH. cbn [fromhex].
    rewrite hex_value_hex_char by (apply N.mod_lt; lia).
    f_equal. rewrite Nat2N.inj_succ, N.pow_succ_r'.
    rewrite (N.Div0.mod_mul_r n 16 (16 ^ N.of_nat k)). lia.
Qed.

Lemma hex_value_not_space (c : ascii) (d : N) :
  hex_value c = Some d -> is_space c = false.
Proof.
  destruct c as [[] [] [] [] [] [] [] []]; try discriminate; reflexivity.
Qed.

(** On an even number of hexadecimal digits [bytes.fromhex] reads one byte
    per pair. *)
Lemma bytes_fromhex_digits (s : string) :
  (forall count a n,
     Nat.Even (String.length s) -> fromhex s a = Some n ->
     bytes_fromhex s count a
     = Some ((count + Nat.div2 (String.length s))%nat, n))
  /\ (forall c count a n,
        Nat.Even (String.length (String c s)) ->
        fromhex (String c s) a = Some n ->
        bytes_fromhex (String c s) count a
        = Some ((count + Nat.div2 (String.length (String c s)))%nat, n)).
Proof.
  induction s as [|c' s [IH0 IH1]].
  - split.
    + intros count a n _ [= <-]. cbn. f_equal. f_equal. lia.
    + intros c count a n [k Hk]. cbn in Hk. lia.
  - split; [exact (IH1 c')|].
    intros c count a n Heven. cbn [fromhex].
    destruct (hex_value c) as [top|] eqn:Hc; [|discriminate].
    destruct (hex_value c') as [bot|] eqn:Hc'; [|discriminate].
    intros Hn. cbn [bytes_fromhex].
    rewrite (hex_value_not_space c top Hc), Hc, Hc'.
    assert (Hs : Nat.Even (String.length s)).
    { destruct Heven as [k Hk]. cbn in Hk. exists (k - 1)%nat. lia. }
    rewrite (IH0 (S count) (256 * a + 16 * top + bot)%N n Hs).
    + cbn [String.length Nat.div2]. f_equal. f_equal. lia.
    + rewrite <- Hn. f_equal. lia.
Qed.

(** [ObjectId(str(oid))] is [oid]. *)
Lemma ObjectId_of_str_str (o : ObjectId) :
  (o < 2 ^ 96)%N -> ObjectId_of_str (ObjectId_str o) = Some o.
Proof.
  intros Ho. unfold ObjectId_of_str, ObjectId_str.
  rewrite hex_digits_length. simpl Nat.eqb. cbv iota.
  rewrite (proj1 (bytes_fromhex_digits (hex_digits 24 o "")) 0%nat 0%N o).
  - rewrite hex_digits_length. reflexivity.
  - rewrite hex_digits_length. exists 12%nat. reflexivity.
  - rewrite fromhex_hex_digits.
    change (16 ^ N.of_nat 24)%N with (2 ^ 96)%N.
    rewrite N.mod_small by assumption. reflexivity.
Qed.

(** Every character that [bytes.fromhex] reads is white space or one of the
    two digits of a byte. *)
Lemma bytes_fromhex_count (s : string) :
  (forall count a k n,
     bytes_fromhex s count a = Some (k, n) ->
     (2 * k + spaces s = 2 * count + String.length s)%nat)
  /\ (forall c count a k n,
        bytes_fromhex (String c s) count a = Some (k, n) ->
        (2 * k + spaces (String c s)
         = 2 * count + String.length (String c s))%nat).
Proof.
  induction s as [|c' s [IH0 IH1]].
  - split.
    + intros count a k n [= <- _]. cbn. lia.
    + intros c count a k n. cbn [bytes_fromhex spaces String.length].
      destruct (is_space c); [intros [= <- _]; lia|].
      by destruct (hex_value c).
  - split; [exact (IH1 c')|].
    intros c count a k n. cbn [bytes_fromhex].
    destruct (is_space c) eqn:Hc.
    + intros H. apply (IH1 c') in H.
      change (spaces (String c (String c' s)))
        with ((if is_space c then 1 else 0) + spaces (String c' s))%nat.
      rewrite Hc. cbn [String.length] in *. lia.
    + destruct (hex_value c); [|discriminate].
      destruct (hex_value c') as [bot|] eqn:Hc'; [|discriminate].
      intros H. apply IH0 in H. cbn [spaces String.length].
      rewrite Hc, (hex_value_not_space c' bot Hc'). lia.
Qed.

(** Text with white space gives an id of fewer than twelve bytes, which is
    none of the ids of twelve bytes. *)
Lemma ObjectId_of_str_spaces (s : string) (o : ObjectId) :
  ObjectId_of_str s = Some o -> spaces s <> 0%nat -> (2 ^ 96 <= o)%N.
Proof.
  unfold ObjectId_of_str.
  destruct (Nat.eqb_spec (String.length s) 24) as [Hlen|]; [|discriminate].
  destruct (bytes_fromhex s 0 0%N) as [[k n]|] eqn:Hb; [|discriminate].
  intros [= <-] Hsp.
  apply (proj1 (bytes_fromhex_count s)) in Hb.
  unfold ObjectId_of_bytes.
  destruct (Nat.eqb_spec k 12) as [->|_]; lia.
Qed.

(** ** Documents and collections *)

Lemma to_py_id (d : stored) : to_py d !! "_id" = Some (VObjectId (fst d)).
Proof. unfold to_py. apply lookup_insert_eq. Qed.

Lemma to_py_other (d : stored) (k : string) :
  k <> "_id" -> to_py d !! k = snd d !! k.
Proof. intros Hk. unfold to_py. by rewrite lookup_insert_ne. Qed.

Lemma matches_id (o : ObjectId) (d : stored) :
  matches [("_id", VObjectId o)] d = true <-> fst d = o.
Proof.
  unfold matches. simpl. rewrite andb_true_r, to_py_id.
  rewrite bool_decide_eq_true. split; [by intros [= ->] | by intros ->].
Qed.

Lemma find_one_Some (q : list (string * value)) (c : list stored)
    (u : gmap string value) :
  find_one q c = Some u ->
  exists d, In d c /\ matches q d = true /\ u = to_py d.
Proof.
  induction c as [|d c IH]; simpl; [discriminate|].
  destruct (matches q d) eqn:Hm.
  - intros [= <-]. exists d. auto.
  - intros H. destruct (IH H) as (d' & Hin & Hm' & ->). exists d'. auto.
Qed.

Lemma insert_one_Some (doc : gmap string value) (o : ObjectId)
    (c c' : list stored) :
  insert_one doc o c = Some c' -> c' = c ++ [(o, doc)].
Proof. unfold insert_one. case_match; congruence. Qed.

Lemma update_one_set_Forall (P : stored -> Prop) (q : list (string * value))
    (fields : gmap string value) (c : list stored) :
  (forall d, P (fst d, fields ∪ snd d)) ->
  Forall P c -> Forall P (update_one_set q fields c).
Proof.
  intros Hnew. induction 1 as [|d c Hd Hc IH]; simpl; [constructor|].
  destruct (matches q d); constructor; auto.
Qed.

(** After [$set] on the document of an id, that id finds the document with
    the new fields laid over the old ones. *)
Lemma find_one_update_one_set_id (o : ObjectId) (fields : gmap string value)
    (c : list stored) (u : gmap string value) :
  find_one [("_id", VObjectId o)] c = Some u ->
  exists d, In d c /\ fst d = o /\ u = to_py d
    /\ find_one [("_id", VObjectId o)]
         (update_one_set [("_id", VObjectId o)] fields c)
       = Some (to_py (o, fields ∪ snd d)).
Proof.
  induction c as [|d c IH]; cbn [find_one update_one_set]; [discriminate|].
  destruct (matches [("_id", VObjectId o)] d) eqn:Hm.
  - intros [= <-]. apply matches_id in Hm. exists d.
    split; [by left|]. split; [assumption|]. split; [reflexivity|].
    cbn [find_one].
    assert (Hm' : matches [("_id", VObjectId o)]
                    (fst d, fields ∪ snd d) = true) by by apply matches_id.
    rewrite Hm'. by rewrite Hm.
  - intros H. destruct (IH H) as (d' & Hin & Hid & Hu & Hfind).
    exists d'. split; [by right|]. split; [assumption|]. split; [assumption|].
    cbn [find_one]. by rewrite Hm.
Qed.

(** After [$inc] on the document of an id, that id finds the document with
    the counter one higher. *)
Lemma update_one_inc_id (o : ObjectId) (c : list stored)
    (wp : gmap string value) (n : Z) :
  find_one [("_id", VObjectId o)] c = Some wp ->
  downloads wp = VInt n ->
  exists c',
    update_one_inc [("_id", VObjectId o)] "downloads" 1 c = Some c'
    /\ find_one [("_id", VObjectId o)] c'
       = Some (<["downloads" := VInt (n + 1)]> wp).
Proof.
  induction c as [|d c IH]; cbn [find_one update_one_inc]; [discriminate|].
  destruct (matches [("_id", VObjectId o)] d) eqn:Hm.
  - intros [= <-] Hn. unfold downloads, get_default in Hn.
    rewrite to_py_other in Hn by done.
    assert (Hinc : inc_field "downloads" 1 d
                   = Some (fst d, <["downloads" := VInt (n + 1)]> (snd d))).
    { unfold inc_field. destruct (snd d !! "downloads") as [[]|]; simpl in Hn;
        try discriminate; by injection Hn as <-. }
    rewrite Hinc. eexists. split; [reflexivity|].
    cbn [find_one].
    assert (Hm' : matches [("_id", VObjectId o)]
                    (fst d, <["downloads" := VInt (n + 1)]> (snd d)) = true).
    { apply matches_id. by apply matches_id in Hm. }
    rewrite Hm'. f_equal. unfold to_py. simpl. by apply insert_insert_ne.
  - intros Hfind Hn. destruct (IH Hfind Hn) as (c' & -> & Hfind').
    eexists. split; [reflexivity|]. cbn [find_one]. by rewrite Hm.
Qed.

Lemma existsb_eqb_In (s : string) (l : list string) :
  existsb (String.eqb s) l = true <-> In s l.
Proof.
  rewrite existsb_exists. split.
  - intros (x & Hin & Heq). apply String.eqb_eq in Heq. by subst.
  - intros Hin. exists s. split; [assumption | apply String.eqb_refl].
Qed.

Lemma fresh_app (o o' : ObjectId) (doc : gmap string value) (c : list stored) :
  fresh o c -> o' <> o -> fresh o (c ++ [(o', doc)]).
Proof.
  unfold fresh. intros Hc Hne. rewrite existsb_app.
  apply orb_false_intro; [exact Hc|]. simpl.
  rewrite orb_false_r. by apply N.eqb_neq.
Qed.

(** ** The executable codec satisfies the assumption *)

Lemma dec_pos_enc_pos (p : positive) (s : string) :
  Sim.dec_pos (Sim.enc_pos p +:+ s) = Some (p, s).
Proof. induction p as [p IH|p IH|]; simpl; [by rewrite IH..|reflexivity]. Qed.

Lemma dec_Z_enc_Z (z : Z) (s : string) :
  Sim.dec_Z (Sim.enc_Z z +:+ s) = Some (z, s).
Proof. destruct z; simpl; [reflexivity|by rewrite dec_pos_enc_pos..]. Qed.

Lemma nested_enc_Z (z : Z) (s : string) : Sim.nested (Sim.enc_Z z +:+ s) = false.
Proof. by destruct z. Qed.

Lemma sim_roundtrip : jose_roundtrip Sim.env.
Proof.
  intros sub exp key now. simpl. unfold Sim.encode, Sim.decode.
  rewrite lookup_insert_eq, lookup_insert_ne, lookup_singleton_eq by done.
  split.
  - by destruct (timestamp exp).
  - intros Hle. rewrite nested_enc_Z, dec_Z_enc_Z.
    destruct (Z.ltb_spec (timestamp exp) (timestamp now)); [lia|reflexivity].
Qed.

(** ** The dependency [get_current_user] *)

Lemma depends_unchanged {A : Type} (E : Env) (authorization : option string)
    (now : Z) (db : DB) (handler : gmap string value -> DB -> result A * DB) :
  (forall u, snd (handler u db) = db) ->
  snd (depends E authorization now db handler) = db.
Proof.
  intros H. unfold depends.
  destruct (get_current_user E authorization now db); simpl; auto.
Qed.

(** The current user is the stored record of a user, its [_id] replaced by
    the string [id]. *)
Lemma get_current_user_Ok (E : Env) (authorization : option string) (now : Z)
    (db : DB) (current_user : gmap string value) :
  get_current_user E authorization now db = Ok current_user ->
  exists d,
    In d (user db)
    /\ find_one [("_id", VObjectId (fst d))] (user db) = Some (to_py d)
    /\ current_user
       = delete "_id" (<["id" := VStr (ObjectId_str (fst d))]> (to_py d)).
Proof.
  unfold get_current_user.
  destruct (get_current_user_sub E authorization now) as [sub| |];
    cbn [mbind result_bind]; try discriminate.
  unfold get_current_user_record.
  destruct (ObjectId_new sub) as [oid| |]; cbn [mbind result_bind];
    try discriminate.
  destruct (find_one _ _) as [u|] eqn:Hfind; try discriminate.
  destruct (find_one_Some _ _ _ Hfind) as (d & Hin & Hm & ->).
  apply matches_id in Hm. subst oid.
  unfold subscript. rewrite to_py_id. cbn [mbind result_bind str].
  intros [= <-]. exists d. auto.
Qed.

(** The verification on a bearer header whose token decodes. *)
Lemma bearer_header (E : Env) (token : string) (now : Z) (payload : gmap string value) :
  token <> "" ->
  jwt_decode E token (SECRET_KEY E) [ALGORITHM] now = Decoded payload ->
  get_current_user_sub E (Some ("Bearer " +:+ token)) now
  = if bool_decide (get payload "sub" = VNone)
    then HTTPException 401 "Invalid token" else Ok (get payload "sub").
Proof.
  intros Hne Hdec. unfold get_current_user_sub. simpl.
  change ("" +:+ token) with token.
  destruct (String.eqb_spec token "") as [Hempty|_]; [contradiction|].
  by rewrite Hdec.
Qed.

(** ** C1: the subscription invariant *)

Lemma subscription_fields_invariant (plan : string) (now : Z) (d : stored) :
  user_invariant (fst d, subscription_fields plan now ∪ snd d).
Proof.
  exists (negb (String.eqb plan "free")), plan. simpl.
  split; [|split; [|reflexivity]];
    apply lookup_union_Some_l; unfold subscription_fields; by simplify_map_eq.
Qed.

Lemma seed_sample_loop_user (todo : list (gmap string value)) (i : nat)
    (now : Z) (ids : nat -> ObjectId) (db : DB) :
  user (snd (seed_sample_loop todo i now ids db)) = user db.
Proof.
  revert i db. induction todo as [|s rest IH]; intros i db;
    cbn [seed_sample_loop]; [done|].
  destruct (subscript s "title"); [|done|done].
  destruct (find_one _ _); [apply IH|].
  destruct (insert_one _ _ _); [|done]. by rewrite IH.
Qed.

(** What a request can do to the collection of users: nothing, append a
    user who satisfies the invariant, or set the subscription fields of a
    user. *)
Lemma serve_user (E : Env) (req : request) (now : Z) (db : DB) :
  user (snd (serve E req now db)) = user db
  \/ (exists o doc,
        user (snd (serve E req now db)) = user db ++ [(o, doc)]
        /\ user_invariant (o, doc))
  \/ (exists q plan,
        user (snd (serve E req now db))
          = update_one_set q (subscription_fields plan now) (user db)).
Proof.
  destruct req as [body new_id|body|auth|auth body|cat lim auth|auth wid
                  |auth body new_id|auth ids]; cbn [serve json snd].
  - unfold register. destruct (find_one _ _); [by left|].
    destruct (insert_one _ _ _) eqn:Hins; [|by left].
    apply insert_one_Some in Hins. subst. right. left.
    do 2 eexists. split; [reflexivity|].
    exists false, "free". simpl. split; [|split; [|reflexivity]];
      by simplify_map_eq.
  - by left.
  - left. unfold depends. by destruct (get_current_user _ _ _ _).
  - unfold depends. destruct (get_current_user _ _ _ _) as [u| |];
      [|by left|by left].
    unfold subscribe. destruct (negb _); [by left|].
    destruct (_ ≫= _); [|by left|by left].
    right. right. by do 2 eexists.
  - by left.
  - left. unfold depends. destruct (get_current_user _ _ _ _) as [u| |];
      [|done|done].
    unfold download_wallpaper. destruct (ObjectId_new _); [|done|done].
    destruct (find_one _ _); [|done]. destruct (negb _); [done|].
    by destruct (update_one_inc _ _ _ _).
  - left. unfold depends. destruct (get_current_user _ _ _ _) as [u| |];
      [|done|done].
    unfold admin_create_wallpaper. destruct (negb _); [done|].
    by destruct (insert_one _ _ _).
  - left. unfold depends. destruct (get_current_user _ _ _ _) as [u| |];
      [|done|done].
    unfold seed_sample. destruct (negb _); [done|].
    pose proof (seed_sample_loop_user samples 0 now ids db) as Hloop.
    by destruct (seed_sample_loop samples 0 now ids db) as [[?|? ?|?] ?].
Qed.

Lemma serve_invariant (E : Env) (req : request) (now : Z) (db : DB) :
  Forall user_invariant (user db) ->
  Forall user_invariant (user (snd (serve E req now db))).
Proof.
  intros Hinv.
  destruct (serve_user E req now db)
    as [-> | [(o & doc & -> & Hdoc) | (q & plan & ->)]].
  - assumption.
  - apply Forall_app. split; [assumption | by constructor].
  - apply update_one_set_Forall; [|assumption].
    apply subscription_fields_invariant.
Qed.

(** C1.  (1) Whatever requests are served, [subscribed == (plan != "free")]
    stays true of every stored user.  (2) A successful registration appends
    a user with plan [free], [subscribed = False] and [plan_ends_at = None].
    (3) For every plan among [free], [pro], [elite], [subscribe] answers,
    and writes to the record of the current user, that plan,
    [subscribed = (plan != "free")] and [plan_ends_at = now + 30 days] for a
    paid plan, [None] for [free]; the other fields of the record, but
    [updated_at], stay. *)
Theorem subscription_invariant (E : Env) :
  (forall reqs db,
     Forall user_invariant (user db) ->
     Forall user_invariant (user (run E reqs db)))
  /\ (forall body now new_id db r db',
        register E body now new_id db = (Ok r, db') ->
        exists doc,
          user db' = user db ++ [(new_id, doc)]
          /\ doc !! "plan" = Some (VStr "free")
          /\ doc !! "subscribed" = Some (VBool false)
          /\ doc !! "plan_ends_at" = Some VNone
          /\ user_invariant (new_id, doc))
  /\ (forall body current_user now db id oid,
        In (SubscriptionRequest.plan body) ["free"; "pro"; "elite"] ->
        current_user !! "id" = Some (VStr id) ->
        ObjectId_of_str id = Some oid ->
        let plan := SubscriptionRequest.plan body in
        let subscribed := negb (String.eqb plan "free") in
        let ends_at :=
          if subscribed then VDatetime (now + 30 * day) else VNone in
        exists resp db',
          subscribe body current_user now db = (Ok resp, db')
          /\ resp !! "plan" = Some (VStr plan)
          /\ resp !! "subscribed" = Some (VBool subscribed)
          /\ resp !! "plan_ends_at" = Some ends_at
          /\ forall u,
               find_one [("_id", VObjectId oid)] (user db) = Some u ->
               exists u',
                 find_one [("_id", VObjectId oid)] (user db') = Some u'
                 /\ u' !! "plan" = Some (VStr plan)
                 /\ u' !! "subscribed" = Some (VBool subscribed)
                 /\ u' !! "plan_ends_at" = Some ends_at
                 /\ forall k, subscription_fields plan now !! k = None ->
                              u' !! k = u !! k).
Proof.
  split; [|split].
  - intros reqs. induction reqs as [|[req now] rest IH]; intros db Hinv;
      cbn [run]; [assumption|].
    apply IH. by apply serve_invariant.
  - intros body now new_id db r db'. unfold register.
    destruct (find_one _ _); [discriminate|].
    destruct (insert_one _ _ _) eqn:Hins; [|discriminate].
    apply insert_one_Some in Hins. subst. intros [= <- <-].
    eexists. split; [reflexivity|].
    split; [by simplify_map_eq|]. split; [by simplify_map_eq|].
    split; [by simplify_map_eq|].
    exists false, "free". simpl. split; [|split; [|reflexivity]];
      by simplify_map_eq.
  - intros body current_user now db id oid Hplan Hid Hoid plan subscribed ends_at.
    unfold subscribe. fold plan.
    apply existsb_eqb_In in Hplan. fold plan in Hplan. rewrite Hplan.
    cbn [negb]. unfold subscript. rewrite Hid. cbn [mbind result_bind].
    unfold ObjectId_new. rewrite Hoid.
    do 2 eexists. split; [reflexivity|].
    split; [by simplify_map_eq|]. split; [by simplify_map_eq|].
    split.
    { fold subscribed. unfold ends_at, timedelta_days, day.
      destruct subscribed; by simplify_map_eq. }
    intros u Hu. cbn [set_user user].
    destruct (find_one_update_one_set_id oid (subscription_fields plan now)
                (user db) u Hu) as (d & Hin & Hfst & -> & Hfind).
    unfold subscription_fields in Hfind. fold subscribed in Hfind.
    exists (to_py (oid, subscription_fields plan now ∪ snd d)).
    split; [exact Hfind|].
    assert (Hl : forall k v, k <> "_id" ->
              subscription_fields plan now !! k = Some v ->
              to_py (oid, subscription_fields plan now ∪ snd d) !! k = Some v).
    { intros k v Hk Hf. rewrite to_py_other by assumption. simpl.
      by apply lookup_union_Some_l. }
    split; [apply Hl; [done|]; unfold subscription_fields; by simplify_map_eq|].
    split; [apply Hl; [done|]; unfold subscription_fields; by simplify_map_eq|].
    split.
    { apply Hl; [done|]. unfold subscription_fields, ends_at, subscribed,
        timedelta_days, day. destruct (negb _); by simplify_map_eq. }
    intros k Hk. destruct (decide (k = "_id")) as [->|Hne].
    + rewrite !to_py_id. simpl. by rewrite Hfst.
    + rewrite !to_py_other by assumption. simpl.
      by rewrite lookup_union_r.
Qed.

Lemma subscription_invariant_witness :
  Forall user_invariant
    (user (run Sim.env
             [(PostRegister alice 1%N, 0);
              (PostSubscribe (bearer (alice_token 0))
                 (SubscriptionRequest.mk "pro"), 0)]
             empty_db))
  /\ (exists doc,
        user db_registered = user empty_db ++ [(1%N, doc)]
        /\ doc !! "plan" = Some (VStr "free")
        /\ doc !! "subscribed" = Some (VBool false)
        /\ doc !! "plan_ends_at" = Some VNone
        /\ user_invariant (1%N, doc))
  /\ (exists resp db',
        subscribe (SubscriptionRequest.mk "pro") alice_me 0 db_registered
          = (Ok resp, db')
        /\ resp !! "plan_ends_at" = Some (VDatetime (0 + 30 * day))).
Proof.
  split; [|split].
  - apply (proj1 (subscription_invariant Sim.env)). constructor.
  - apply (proj1 (proj2 (subscription_invariant Sim.env)) alice 0 1%N empty_db
             {[ "access_token" := VStr (alice_token 0) ]} db_registered).
    by_evaluation.
  - destruct (proj2 (proj2 (subscription_invariant Sim.env))
                (SubscriptionRequest.mk "pro") alice_me 0 db_registered
                alice_id 1%N)
      as (resp & db' & Hsub & _ & _ & Hends & _).
    + simpl. auto.
    + vm_compute. reflexivity.
    + vm_compute. reflexivity.
    + exists resp, db'. split; assumption.
Defined.

(** A dictionary without object ids is answered as it is. *)
Lemma jsonable_encoder_Ok (d : gmap string value) :
  map_Forall (fun _ v => jsonable v = true) d -> jsonable_encoder d = Ok d.
Proof. intros Hd. unfold jsonable_encoder. by rewrite bool_decide_eq_true_2. Qed.

Lemma jsonable_encoder_inv (d d' : gmap string value) :
  jsonable_encoder d = Ok d' ->
  d' = d /\ map_Forall (fun _ v => jsonable v = true) d.
Proof.
  unfold jsonable_encoder. case_bool_decide; [|discriminate].
  by intros [= <-].
Qed.

(** An answer that went out is the value the handler returned. *)
Lemma json_Ok (r : result (gmap string value) * DB) (d : gmap string value) :
  fst (json r) = Ok (Json d) ->
  fst r = Ok d /\ map_Forall (fun _ v => jsonable v = true) d.
Proof.
  unfold json. cbn [fst].
  destruct (fst r) as [d0| |]; cbn [mbind result_bind]; try discriminate.
  destruct (jsonable_encoder d0) as [d1| |] eqn:He; cbn [mbind result_bind];
    try discriminate.
  intros [= <-]. apply jsonable_encoder_inv in He as [-> Hd]. auto.
Qed.

Lemma subscription_response_jsonable (plan : string) (now : Z) :
  map_Forall (fun _ v => jsonable v = true)
    (<["status" := VStr "ok"]>
       (<["plan" := VStr plan]>
          (<["subscribed" := VBool (negb (String.eqb plan "free"))]>
             (<["plan_ends_at" :=
                  if negb (String.eqb plan "free")
                  then VDatetime (now + timedelta_days 30) else VNone]>
                (∅ : gmap string value))))).
Proof.
  repeat apply map_Forall_insert_2; try reflexivity.
  - by destruct (negb _).
  - apply map_Forall_empty.
Qed.

(** End to end: an authenticated caller who asks for a valid plan gets it
    written to the very record the token names. *)
Lemma subscribe_current_user (E : Env) (authorization : option string)
    (body : SubscriptionRequest.t) (now : Z) (db : DB)
    (current_user : gmap string value) :
  get_current_user E authorization now db = Ok current_user ->
  object_ids (user db) ->
  In (SubscriptionRequest.plan body) ["free"; "pro"; "elite"] ->
  exists d resp db',
    In d (user db)
    /\ find_one [("_id", VObjectId (fst d))] (user db) = Some (to_py d)
    /\ serve E (PostSubscribe authorization body) now db = (Ok (Json resp), db')
    /\ find_one [("_id", VObjectId (fst d))] (user db')
       = Some (to_py (fst d,
                      subscription_fields (SubscriptionRequest.plan body) now
                        ∪ snd d)).
Proof.
  intros Hauth Hids Hplan.
  destruct (get_current_user_Ok E authorization now db current_user Hauth)
    as (d & Hin & Hfind & Hcu).
  assert (Hid : current_user !! "id" = Some (VStr (ObjectId_str (fst d)))).
  { subst current_user. by rewrite lookup_delete_ne, lookup_insert_eq. }
  assert (Hoid : ObjectId_of_str (ObjectId_str (fst d)) = Some (fst d)).
  { apply ObjectId_of_str_str.
    unfold object_ids in Hids. rewrite Forall_forall in Hids.
    apply Hids. by apply list_elem_of_In. }
  cbn [serve json]. unfold depends. rewrite Hauth.
  unfold subscribe. apply existsb_eqb_In in Hplan. rewrite Hplan.
  cbn [negb]. unfold subscript. rewrite Hid. cbn [mbind result_bind].
  unfold ObjectId_new. rewrite Hoid. unfold json.
  cbn [fst snd mbind result_bind].
  rewrite (jsonable_encoder_Ok _ (subscription_response_jsonable _ now)).
  cbn [mbind result_bind].
  destruct (find_one_update_one_set_id (fst d)
              (subscription_fields (SubscriptionRequest.plan body) now)
              (user db) (to_py d) Hfind) as (d' & Hin' & Hfst & Hpy & Hfind').
  exists d'. do 2 eexists. rewrite Hfst, <- Hpy.
  split; [assumption|]. split; [assumption|].
  split; [reflexivity|]. exact Hfind'.
Qed.

(** ** The listing never raises *)

Lemma list_wallpapers_item_ok (E : Env) (b : bool) (w : stored) :
  exists item, list_wallpapers_item E b (to_py w) = Ok item
    /\ item !! "watermarked" = Some (VBool (negb b))
    /\ item !! "image_url" =
         Some (if b then get (to_py w) "image_url"
               else VStr (str E (get (to_py w) "image_url") +:+ "?wm=1")).
Proof.
  unfold list_wallpapers_item, subscript. rewrite to_py_id. simpl.
  eexists. split; [reflexivity|]. split; by simplify_map_eq.
Qed.

Lemma list_wallpapers_items_ok (E : Env) (b : bool) (cursor : list stored) :
  exists its, list_wallpapers_items E b cursor = Ok its
    /\ Forall (fun it => it !! "watermarked" = Some (VBool (negb b))) its.
Proof.
  induction cursor as [|w rest (its & Hrest & Hall)]; simpl.
  - exists []. split; [reflexivity | constructor].
  - destruct (list_wallpapers_item_ok E b w) as (it & Hit & Hwm & _).
    exists (it :: its). rewrite Hit, Hrest. split; [reflexivity|].
    constructor; assumption.
Qed.

(** The listing always answers, with the flag the optional authentication
    computed and every item watermarked exactly when the flag is false. *)
Lemma list_wallpapers_ok (E : Env) (category : option string) (limit : Z)
    (authorization : option string) (now : Z) (db : DB) :
  exists l, list_wallpapers E category limit authorization now db = Ok l
    /\ subscribed l = list_wallpapers_subscribed E authorization now db
    /\ Forall (fun it => it !! "watermarked" = Some (VBool (negb (subscribed l))))
         (items l).
Proof.
  unfold list_wallpapers.
  set (b := list_wallpapers_subscribed E authorization now db).
  set (cursor := cursor_sort_limit E _ _ _ _).
  destruct (list_wallpapers_items_ok E b cursor) as (its & Hits & Hwm).
  rewrite Hits. eexists. split; [reflexivity|]. split; [reflexivity|].
  exact Hwm.
Qed.

(** ** Downloads *)

(** What [download_wallpaper] does for an id that parses. *)
Lemma download_wallpaper_spec (wallpaper_id : string) (oid : ObjectId)
    (current_user : gmap string value) (db : DB) :
  ObjectId_of_str wallpaper_id = Some oid ->
  match find_one [("_id", VObjectId oid)] (wallpaper db) with
  | None =>
      download_wallpaper wallpaper_id current_user db
        = (HTTPException 404 "Wallpaper not found", db)
  | Some wp =>
      if truthy (get current_user "subscribed") then
        forall n, downloads wp = VInt n ->
          exists db',
            download_wallpaper wallpaper_id current_user db
              = (Ok {[ "url" := get wp "image_url" ]}, db')
            /\ user db' = user db
            /\ find_one [("_id", VObjectId oid)] (wallpaper db')
               = Some (<["downloads" := VInt (n + 1)]> wp)
      else
        download_wallpaper wallpaper_id current_user db
          = (HTTPException 402
               "Subscription required for full-resolution download", db)
  end.
Proof.
  intros Hoid. unfold download_wallpaper, ObjectId_new. rewrite Hoid.
  destruct (find_one _ (wallpaper db)) as [wp|] eqn:Hfind; [|reflexivity].
  destruct (truthy (get current_user "subscribed")); [|reflexivity].
  intros n Hn. cbn [negb].
  destruct (update_one_inc_id oid (wallpaper db) wp n Hfind Hn)
    as (c' & -> & Hfind').
  eexists. split; [reflexivity|]. split; [reflexivity|]. exact Hfind'.
Qed.

(** ** C2: a plan that has ended *)

(** C2, as the code has it.  The gating never reads [plan_ends_at]: for
    every user, one whose plan has ended included, the listing and the
    download follow the stored [subscribed] flag.  (1) The listing made for
    a token of the user [u] answers [subscribed = bool(u.subscribed)] and
    watermarks every item exactly when that is false.  (2) For a wallpaper
    that exists, the download is refused with 402 when the flag of the
    current user is false and is served when it is true.  (3) Replacing
    [plan_ends_at] of the current user by any value changes nothing. *)
Theorem gating_follows_stored_flag (E : Env) :
  (forall category limit authorization now db payload id oid u,
     truthy_opt authorization = true ->
     jwt_decode E (snd (partition " " (default "" authorization)))
       (SECRET_KEY E) [ALGORITHM] now = Decoded payload ->
     payload !! "sub" = Some (VStr id) ->
     ObjectId_of_str id = Some oid ->
     find_one [("_id", VObjectId oid)] (user db) = Some u ->
     exists l,
       list_wallpapers E category limit authorization now db = Ok l
       /\ subscribed l = truthy (get u "subscribed")
       /\ Forall (fun it => it !! "watermarked"
                    = Some (VBool (negb (truthy (get u "subscribed")))))
            (items l))
  /\ (forall wallpaper_id oid current_user db wp,
        ObjectId_of_str wallpaper_id = Some oid ->
        find_one [("_id", VObjectId oid)] (wallpaper db) = Some wp ->
        (truthy (get current_user "subscribed") = false ->
           download_wallpaper wallpaper_id current_user db
             = (HTTPException 402
                  "Subscription required for full-resolution download", db))
        /\ (truthy (get current_user "subscribed") = true ->
            forall n, downloads wp = VInt n ->
              exists db',
                download_wallpaper wallpaper_id current_user db
                  = (Ok {[ "url" := get wp "image_url" ]}, db')))
  /\ (forall wallpaper_id current_user db plan_ends_at,
        download_wallpaper wallpaper_id
          (<["plan_ends_at" := plan_ends_at]> current_user) db
        = download_wallpaper wallpaper_id current_user db).
Proof.
  split; [|split].
  - intros category limit authorization now db payload id oid u
      Hauth Hdec Hsub Hoid Hu.
    destruct (list_wallpapers_ok E category limit authorization now db)
      as (l & Hl & Hflag & Hwm).
    assert (Hb : list_wallpapers_subscribed E authorization now db
                 = truthy (get u "subscribed")).
    { unfold list_wallpapers_subscribed. rewrite Hauth.
      destruct (partition " " (default "" authorization)) as [[? ?] token].
      simpl in Hdec. rewrite Hdec. unfold get at 1 2. rewrite Hsub. simpl.
      destruct id as [|c id']; [discriminate|]. simpl.
      unfold ObjectId_new. rewrite Hoid, Hu. reflexivity. }
    exists l. rewrite Hflag, Hb in Hwm. rewrite Hflag, Hb. auto.
  - intros wallpaper_id oid current_user db wp Hoid Hwp.
    pose proof (download_wallpaper_spec wallpaper_id oid current_user db Hoid)
      as Hspec.
    rewrite Hwp in Hspec. split; intros Hflag; rewrite Hflag in Hspec.
    + exact Hspec.
    + intros n Hn. destruct (Hspec n Hn) as (db' & Hd & _). eauto.
  - intros wallpaper_id current_user db plan_ends_at.
    unfold download_wallpaper, get.
    by rewrite lookup_insert_ne.
Qed.

Lemma gating_follows_stored_flag_witness :
  (exists l,
     list_wallpapers Sim.env None 50 (bearer (alice_token later)) later demo_db
       = Ok l
     /\ subscribed l = truthy (get alice_stored "subscribed")
     /\ Forall (fun it => it !! "watermarked"
                  = Some (VBool (negb (truthy (get alice_stored "subscribed")))))
          (items l))
  /\ download_wallpaper neon_wave_id
       {[ "id" := VStr alice_id; "subscribed" := VBool false ]} demo_db
     = (HTTPException 402
          "Subscription required for full-resolution download", demo_db).
Proof.
  split.
  - apply (proj1 (gating_follows_stored_flag Sim.env) None 50
             (bearer (alice_token later)) later demo_db
             (<["exp" := VInt 4060800]> {[ "sub" := VStr alice_id ]})
             alice_id 1%N alice_stored); by_evaluation.
  - apply (proj1 (proj2 (gating_follows_stored_flag Sim.env))
             neon_wave_id 10%N
             {[ "id" := VStr alice_id; "subscribed" := VBool false ]}
             demo_db (to_py neon_wave)); by_evaluation.
Defined.

(** C2 fails as stated.  Alice subscribed to [pro] at instant 0, so her
    plan ended on day 30.  On day 40, with a token of that day, her listing
    is not watermarked and her download is served and counted. *)
Lemma expired_plan_still_entitled :
  alice_stored !! "plan_ends_at" = Some (VDatetime (30 * day))
  /\ 30 * day < later
  /\ alice_stored !! "subscribed" = Some (VBool true)
  /\ subscribed
       <$> list_wallpapers Sim.env None 50 (bearer (alice_token later)) later
             demo_db
     = Ok true
  /\ item_fields "watermarked"
       <$> list_wallpapers Sim.env None 50 (bearer (alice_token later)) later
             demo_db
     = Ok [Some (VBool false)]
  /\ item_fields "image_url"
       <$> list_wallpapers Sim.env None 50 (bearer (alice_token later)) later
             demo_db
     = Ok [Some (VStr "https://img.example/neon")]
  /\ fst (serve Sim.env (GetDownload (bearer (alice_token later)) neon_wave_id)
            later demo_db)
     = Ok (Json {[ "url" := VStr "https://img.example/neon" ]})
  /\ downloads
       <$> find_one [("_id", VObjectId 10%N)] (wallpaper demo_db)
     = Some (VInt 0)
  /\ downloads
       <$> find_one [("_id", VObjectId 10%N)]
             (wallpaper
                (snd (serve Sim.env
                        (GetDownload (bearer (alice_token later)) neon_wave_id)
                        later demo_db)))
     = Some (VInt 1).
Proof. repeat split; by_evaluation. Qed.

(** ** C3: the record returned by [me] *)

(** The subject that the verification yields is the [sub] of the payload
    that the token of the header decodes to. *)
Lemma get_current_user_sub_Ok (E : Env) (authorization : option string)
    (now : Z) (sub : value) :
  get_current_user_sub E authorization now = Ok sub ->
  exists payload,
    jwt_decode E (snd (partition " " (default "" authorization)))
      (SECRET_KEY E) [ALGORITHM] now = Decoded payload
    /\ sub = get payload "sub".
Proof.
  unfold get_current_user_sub.
  destruct (negb (truthy_opt authorization)); [discriminate|].
  destruct (partition " " (default "" authorization)) as [[scheme ?] token].
  destruct (negb (String.eqb (lower scheme) "bearer") || String.eqb token "");
    [discriminate|].
  cbn [snd].
  destruct (jwt_decode E token (SECRET_KEY E) [ALGORITHM] now) as [payload| |];
    try discriminate.
  case_bool_decide; [discriminate|]. intros [= <-]. by exists payload.
Qed.

(** C3, as the code has it.  Whenever [me] answers, the token of the header
    decodes to a payload, and the answer is the stored record of the user
    whom the subject of that payload names (the record that the look-up by
    that object id finds), with the key [_id] replaced by the key [id], a
    string (the 24 hexadecimal digits of the object id); every other stored
    field, [password_hash] among them, is returned as stored. *)
Theorem me_returns_stored_record (E : Env) (authorization : option string)
    (now : Z) (db : DB) (current_user : gmap string value) :
  fst (serve E (GetMe authorization) now db) = Ok (Json current_user) ->
  exists payload d,
    jwt_decode E (snd (partition " " (default "" authorization)))
      (SECRET_KEY E) [ALGORITHM] now = Decoded payload
    /\ ObjectId_new (get payload "sub") = Ok (fst d)
    /\ find_one [("_id", VObjectId (fst d))] (user db) = Some (to_py d)
    /\ In d (user db)
    /\ current_user !! "id" = Some (VStr (ObjectId_str (fst d)))
    /\ current_user !! "_id" = None
    /\ forall k, k <> "id" -> k <> "_id" -> current_user !! k = snd d !! k.
Proof.
  cbn [serve]. intros Hjson. apply json_Ok in Hjson as [Hme _].
  revert Hme. unfold depends, me, get_current_user.
  destruct (get_current_user_sub E authorization now) as [sub| |] eqn:Hsub;
    cbn [fst mbind result_bind]; try discriminate.
  destruct (get_current_user_sub_Ok E authorization now sub Hsub)
    as (payload & Hdec & ->).
  unfold get_current_user_record.
  destruct (ObjectId_new (get payload "sub")) as [oid| |] eqn:Hoid;
    cbn [fst mbind result_bind]; try discriminate.
  destruct (find_one _ _) as [u|] eqn:Hfind; cbn [fst]; try discriminate.
  destruct (find_one_Some _ _ _ Hfind) as (d & Hin & Hm & ->).
  apply matches_id in Hm. subst oid.
  unfold subscript. rewrite to_py_id. cbn [fst mbind result_bind str].
  intros [= <-]. exists payload, d.
  split; [exact Hdec|]. split; [exact Hoid|]. split; [exact Hfind|].
  split; [exact Hin|].
  split; [by rewrite lookup_delete_ne, lookup_insert_eq|].
  split; [by rewrite lookup_delete_eq|].
  intros k Hid H_id.
  rewrite lookup_delete_ne, lookup_insert_ne by done. by apply to_py_other.
Qed.

Lemma me_returns_stored_record_witness :
  exists payload d,
    jwt_decode Sim.env
      (snd (partition " " (default "" (bearer (alice_token 0)))))
      (SECRET_KEY Sim.env) [ALGORITHM] 0 = Decoded payload
    /\ ObjectId_new (get payload "sub") = Ok (fst d)
    /\ find_one [("_id", VObjectId (fst d))] (user db_registered)
       = Some (to_py d)
    /\ In d (user db_registered)
    /\ alice_me !! "id" = Some (VStr (ObjectId_str (fst d)))
    /\ alice_me !! "_id" = None
    /\ forall k, k <> "id" -> k <> "_id" -> alice_me !! k = snd d !! k.
Proof.
  apply (me_returns_stored_record Sim.env (bearer (alice_token 0)) 0
           db_registered alice_me).
  by_evaluation.
Defined.

(** C3 fails as stated: after Alice has registered, [me] called with her
    token answers a record that carries her password hash. *)
Lemma me_leaks_password_hash :
  fst (serve Sim.env (GetMe (bearer (alice_token 0))) 0 db_registered)
    = Ok (Json alice_me)
  /\ alice_me !! "id" = Some (VStr alice_id)
  /\ alice_me !! "_id" = None
  /\ alice_me !! "password_hash" = Some (VStr "$pw").
Proof. repeat split; by_evaluation. Qed.

(** ** C4: downloads *)

(** C4.  Evaluation at a failing input: for the wallpaper id [abc], which
    is the id of no stored wallpaper, [download_wallpaper] raises
    [InvalidId] (the client sees a 500) for every caller and every
    database; it does not answer 404. *)
Theorem download_malformed_id (current_user : gmap string value) (db : DB) :
  download_wallpaper "abc" current_user db = (Raised "InvalidId", db)
  /\ Forall (fun d => ObjectId_str (fst d) <> "abc") (wallpaper db).
Proof.
  split; [reflexivity|].
  apply Forall_forall. intros d _ Heq.
  apply (f_equal String.length) in Heq.
  unfold ObjectId_str in Heq. rewrite hex_digits_length in Heq.
  simpl in Heq. lia.
Qed.

(** ** C5: failures of the token verification *)

(** The verification proper (lines 81-92) yields a subject, fails with 401,
    or lets through the exception that the codec raised. *)
Lemma get_current_user_sub_cases (E : Env) (authorization : option string)
    (now : Z) :
  (exists sub, get_current_user_sub E authorization now = Ok sub)
  \/ (exists detail,
        get_current_user_sub E authorization now = HTTPException 401 detail)
  \/ (exists exn,
        jwt_decode E (snd (partition " " (default "" authorization)))
          (SECRET_KEY E) [ALGORITHM] now = OtherError exn
        /\ get_current_user_sub E authorization now = Raised exn).
Proof.
  unfold get_current_user_sub.
  destruct (truthy_opt authorization); simpl; [|eauto].
  destruct (partition " " (default "" authorization)) as [[scheme ?] token].
  destruct (negb (String.eqb (lower scheme) "bearer") || String.eqb token "");
    [eauto|].
  cbn [snd].
  destruct (jwt_decode E token (SECRET_KEY E) [ALGORITHM] now) as [payload| |exn];
    [|eauto|eauto].
  case_bool_decide; eauto.
Qed.

(** Where the verification answers 401: on a missing header, a malformed
    header, a token that the codec rejects with [JWTError] (malformed,
    signature mismatch, elapsed expiry) and a payload without subject, the
    dependency fails with 401 and the endpoint answers that 401 without
    touching the database. *)
Lemma token_verification_failures (E : Env) (authorization : option string)
    (now : Z) (db : DB) :
  let header := partition " " (default "" authorization) in
  truthy_opt authorization = false
  \/ lower (fst (fst header)) <> "bearer"
  \/ snd header = ""
  \/ jwt_decode E (snd header) (SECRET_KEY E) [ALGORITHM] now = JWTError
  \/ (exists payload,
        jwt_decode E (snd header) (SECRET_KEY E) [ALGORITHM] now
          = Decoded payload
        /\ get payload "sub" = VNone) ->
  exists detail,
    get_current_user E authorization now db = HTTPException 401 detail
    /\ forall (A : Type) (handler : gmap string value -> DB -> result A * DB),
         depends E authorization now db handler
           = (HTTPException 401 detail, db).
Proof.
  intros header Hcase.
  assert (Hsub : exists detail,
    get_current_user_sub E authorization now = HTTPException 401 detail).
  { unfold get_current_user_sub. subst header.
    destruct (truthy_opt authorization); simpl; [|eauto].
    destruct (partition " " (default "" authorization)) as [[scheme ?] token].
    simpl in Hcase.
    destruct (String.eqb_spec (lower scheme) "bearer") as [Hs|Hs]; simpl;
      [|eauto].
    destruct (String.eqb_spec token "") as [Ht|Ht]; [eauto|].
    destruct Hcase as [Hc|[Hc|[Hc|[Hc|(payload & Hc & Hnone)]]]];
      try done.
    + rewrite Hc. eauto.
    + rewrite Hc, Hnone. rewrite bool_decide_eq_true_2 by done. eauto. }
  destruct Hsub as (detail & Hsub). exists detail.
  assert (Hu : get_current_user E authorization now db
               = HTTPException 401 detail).
  { unfold get_current_user. by rewrite Hsub. }
  split; [exact Hu|]. intros A handler. unfold depends. by rewrite Hu.
Qed.

(** C5.  Evaluation at the failing inputs.  (1) A token on which the codec
    raises an exception that is no [JWTError] (python-jose on a header
    nested deeper than the JSON parser recurses: [RecursionError]): the
    [except JWTError] of [get_current_user] does not catch it.  (2) A token
    that decodes to a subject which is not the text of an object id:
    [ObjectId(user_id)] at line 94, outside the [try], raises [InvalidId].
    In both cases the dependency raises, and every endpoint that depends on
    it ends in that unhandled exception (the client sees a 500, not a 401),
    the database untouched.  The listing, whose [try] spans both calls and
    catches every exception, takes the same token for an anonymous
    caller. *)
Theorem token_verification_raises (E : Env) (token : string) (now : Z)
    (db : DB) :
  token <> "" ->
  let authorization := Some ("Bearer " +:+ token) in
  (forall exn,
     jwt_decode E token (SECRET_KEY E) [ALGORITHM] now = OtherError exn ->
     get_current_user E authorization now db = Raised exn
     /\ (forall (A : Type) (handler : gmap string value -> DB -> result A * DB),
           depends E authorization now db handler = (Raised exn, db))
     /\ list_wallpapers_subscribed E authorization now db = false)
  /\ (forall payload sub,
        jwt_decode E token (SECRET_KEY E) [ALGORITHM] now = Decoded payload ->
        payload !! "sub" = Some (VStr sub) ->
        ObjectId_of_str sub = None ->
        get_current_user E authorization now db = Raised "InvalidId"
        /\ (forall (A : Type)
                   (handler : gmap string value -> DB -> result A * DB),
              depends E authorization now db handler
              = (Raised "InvalidId", db))
        /\ list_wallpapers_subscribed E authorization now db = false).
Proof.
  intros Hne authorization. subst authorization.
  assert (Hdep : forall exn,
            get_current_user E (Some ("Bearer " +:+ token)) now db = Raised exn ->
            forall (A : Type) (handler : gmap string value -> DB -> result A * DB),
              depends E (Some ("Bearer " +:+ token)) now db handler
              = (Raised exn, db)).
  { intros exn Hu A handler. unfold depends. by rewrite Hu. }
  split.
  - intros exn Hdec.
    assert (Hu : get_current_user E (Some ("Bearer " +:+ token)) now db
                 = Raised exn).
    { unfold get_current_user, get_current_user_sub. simpl.
      change ("" +:+ token) with token.
      destruct (String.eqb_spec token "") as [Hempty|_]; [contradiction|].
      by rewrite Hdec. }
    split; [exact Hu|]. split; [exact (Hdep exn Hu)|].
    unfold list_wallpapers_subscribed. simpl.
    change ("" +:+ token) with token. by rewrite Hdec.
  - intros payload sub Hdec Hsub Hoid.
    assert (Hu : get_current_user E (Some ("Bearer " +:+ token)) now db
                 = Raised "InvalidId").
    { unfold get_current_user.
      rewrite (bearer_header E token now payload Hne Hdec).
      unfold get. rewrite Hsub. cbv [from_option id].
      rewrite bool_decide_eq_false_2 by done. cbn [mbind result_bind].
      unfold get_current_user_record, ObjectId_new. by rewrite Hoid. }
    split; [exact Hu|]. split; [exact (Hdep "InvalidId" Hu)|].
    unfold list_wallpapers_subscribed. simpl.
    change ("" +:+ token) with token. rewrite Hdec.
    unfold get. rewrite Hsub. cbv [from_option id].
    destruct (truthy (VStr sub)); [|reflexivity].
    unfold ObjectId_new. by rewrite Hoid.
Qed.

Lemma token_verification_raises_witness :
  (get_current_user Sim.env (Some ("Bearer " +:+ "[[[[")) later demo_db
     = Raised "RecursionError"
   /\ (forall (A : Type) (handler : gmap string value -> DB -> result A * DB),
         depends Sim.env (Some ("Bearer " +:+ "[[[[")) later demo_db handler
         = (Raised "RecursionError", demo_db))
   /\ list_wallpapers_subscribed Sim.env (Some ("Bearer " +:+ "[[[["))
        later demo_db
      = false)
  /\ (get_current_user Sim.env (Some ("Bearer " +:+ "+1.abc")) 0 demo_db
        = Raised "InvalidId"
      /\ (forall (A : Type)
                 (handler : gmap string value -> DB -> result A * DB),
            depends Sim.env (Some ("Bearer " +:+ "+1.abc")) 0 demo_db handler
            = (Raised "InvalidId", demo_db))
      /\ list_wallpapers_subscribed Sim.env (Some ("Bearer " +:+ "+1.abc"))
           0 demo_db
         = false).
Proof.
  split.
  - apply (proj1 (token_verification_raises Sim.env "[[[[" later demo_db
                    ltac:(discriminate)) "RecursionError").
    reflexivity.
  - apply (proj2 (token_verification_raises Sim.env "+1.abc" 0 demo_db
                    ltac:(discriminate))
             (<["exp" := VInt 3]> {[ "sub" := VStr "abc" ]}) "abc");
      by_evaluation.
Defined.

(** Four of the failures that are answered with 401, run: no header, a
    header that is not a bearer header, a token that is no token, and a
    token that has expired. *)
Example unauthenticated_requests :
  get_current_user Sim.env None later demo_db
    = HTTPException 401 "Not authenticated"
  /\ get_current_user Sim.env (Some ("Basic " +:+ alice_token later)) later demo_db
    = HTTPException 401 "Invalid auth header"
  /\ get_current_user Sim.env (bearer "garbage") later demo_db
    = HTTPException 401 "Invalid token"
  /\ get_current_user Sim.env (bearer (alice_token 0)) later demo_db
    = HTTPException 401 "Invalid token".
Proof. repeat split; by_evaluation. Qed.

(** ** C6: the listing and anonymous callers *)

(** C6.  The listing always answers (so it never answers 401).  When the
    header is missing or the token is rejected by the codec (malformed or
    expired), the answer is the one an anonymous caller gets, and it has
    [subscribed = false] and every item watermarked. *)
Theorem listing_anonymous (E : Env) (category : option string) (limit : Z)
    (authorization : option string) (now : Z) (db : DB) :
  (exists l, list_wallpapers E category limit authorization now db = Ok l)
  /\ (truthy_opt authorization = false
      \/ jwt_decode E (snd (partition " " (default "" authorization)))
           (SECRET_KEY E) [ALGORITHM] now = JWTError ->
      list_wallpapers E category limit authorization now db
        = list_wallpapers E category limit None now db
      /\ exists l, list_wallpapers E category limit authorization now db = Ok l
           /\ subscribed l = false
           /\ Forall (fun it => it !! "watermarked" = Some (VBool true)) (items l)).
Proof.
  destruct (list_wallpapers_ok E category limit authorization now db)
    as (l & Hl & Hsub & Hwm).
  split; [by exists l|].
  intros Hanon.
  assert (Hb : list_wallpapers_subscribed E authorization now db = false).
  { unfold list_wallpapers_subscribed.
    destruct Hanon as [-> | Hdec]; [reflexivity|].
    destruct (truthy_opt authorization); [|reflexivity].
    destruct (partition " " (default "" authorization)) as [[? ?] token].
    simpl in Hdec. by rewrite Hdec. }
  split.
  - unfold list_wallpapers. rewrite Hb. reflexivity.
  - exists l. rewrite Hsub, Hb in Hwm. rewrite Hsub, Hb. auto.
Qed.

Lemma listing_anonymous_witness :
  list_wallpapers Sim.env None 50 (bearer (alice_token 0)) later demo_db
    = list_wallpapers Sim.env None 50 None later demo_db
  /\ exists l,
       list_wallpapers Sim.env None 50 (bearer (alice_token 0)) later demo_db
         = Ok l
       /\ subscribed l = false
       /\ Forall (fun it => it !! "watermarked" = Some (VBool true)) (items l).
Proof.
  apply (proj2 (listing_anonymous Sim.env None 50 (bearer (alice_token 0))
                  later demo_db)).
  right. by_evaluation.
Defined.

(** ** C7: the content policy *)

(** C7.  For every stored wallpaper whose [image_url] is a string: the item
    listed for a caller who is not entitled shows [image_url + "?wm=1"] and
    [watermarked = true]; the item listed for an entitled caller shows the
    [image_url] unchanged and [watermarked = false]. *)
Theorem content_policy (E : Env) (w : stored) (url : string) :
  snd w !! "image_url" = Some (VStr url) ->
  (exists item, list_wallpapers_item E false (to_py w) = Ok item
     /\ item !! "image_url" = Some (VStr (url +:+ "?wm=1"))
     /\ item !! "watermarked" = Some (VBool true))
  /\ (exists item, list_wallpapers_item E true (to_py w) = Ok item
     /\ item !! "image_url" = Some (VStr url)
     /\ item !! "watermarked" = Some (VBool false)).
Proof.
  intros Hurl.
  assert (Hget : get (to_py w) "image_url" = VStr url).
  { unfold get. rewrite to_py_other by discriminate. by rewrite Hurl. }
  split.
  - destruct (list_wallpapers_item_ok E false w) as (it & Hit & Hwm & Himg).
    exists it. rewrite Hget in Himg. auto.
  - destruct (list_wallpapers_item_ok E true w) as (it & Hit & Hwm & Himg).
    exists it. rewrite Hget in Himg. auto.
Qed.

Lemma content_policy_witness :
  (exists item, list_wallpapers_item Sim.env false (to_py neon_wave) = Ok item
     /\ item !! "image_url" = Some (VStr ("https://img.example/neon" +:+ "?wm=1"))
     /\ item !! "watermarked" = Some (VBool true))
  /\ (exists item, list_wallpapers_item Sim.env true (to_py neon_wave) = Ok item
     /\ item !! "image_url" = Some (VStr "https://img.example/neon")
     /\ item !! "watermarked" = Some (VBool false)).
Proof.
  apply (content_policy Sim.env neon_wave "https://img.example/neon").
  by_evaluation.
Defined.

(** ** C8: an unknown plan is refused *)

(** C8.  For every current user and every requested plan other than
    [free], [pro] and [elite], [subscribe] fails with 400 "Invalid plan"
    and leaves the database as it was; so does the endpoint, which answers
    that 400 to every authenticated caller. *)
Theorem invalid_plan_rejected (E : Env) (body : SubscriptionRequest.t)
    (current_user : gmap string value) (now : Z) (db : DB) :
  ~ In (SubscriptionRequest.plan body) ["free"; "pro"; "elite"] ->
  subscribe body current_user now db = (HTTPException 400 "Invalid plan", db)
  /\ forall authorization,
       snd (serve E (PostSubscribe authorization body) now db) = db
       /\ (forall u, get_current_user E authorization now db = Ok u ->
             fst (serve E (PostSubscribe authorization body) now db)
               = HTTPException 400 "Invalid plan").
Proof.
  intros Hplan.
  assert (Hsub : forall u, subscribe body u now db
                           = (HTTPException 400 "Invalid plan", db)).
  { intros u. unfold subscribe.
    destruct (existsb _ _) eqn:Hex; [|reflexivity].
    apply existsb_eqb_In in Hex. contradiction. }
  split; [apply Hsub|].
  intros authorization. split.
  - simpl. apply depends_unchanged. intros u. by rewrite Hsub.
  - intros u Hu. simpl. unfold depends. rewrite Hu, Hsub. reflexivity.
Qed.

Lemma invalid_plan_rejected_witness :
  subscribe (SubscriptionRequest.mk "gold") alice_me later demo_db
    = (HTTPException 400 "Invalid plan", demo_db)
  /\ forall authorization,
       snd (serve Sim.env
              (PostSubscribe authorization (SubscriptionRequest.mk "gold"))
              later demo_db) = demo_db
       /\ (forall u,
             get_current_user Sim.env authorization later demo_db = Ok u ->
             fst (serve Sim.env
                    (PostSubscribe authorization (SubscriptionRequest.mk "gold"))
                    later demo_db)
               = HTTPException 400 "Invalid plan").
Proof.
  apply (invalid_plan_rejected Sim.env (SubscriptionRequest.mk "gold") alice_me
           later demo_db).
  simpl. intros [H|[H|[H|[]]]]; discriminate.
Defined.

(** ** C9: issue, then verify *)

(** C9.  For every subject [id] (with a codec that decodes what it
    encoded): the token issued at [now] encodes the claims [sub = id] and
    [exp = now + 7 days], and verifying it at once, or at any instant up to
    that expiry, yields [id]. *)
Theorem issue_verify_roundtrip (E : Env) (id : string) (now now' : Z) :
  jose_roundtrip E ->
  now <= now' <= now + 7 * day ->
  let token := create_access_token E {[ "sub" := VStr id ]} None now in
  token = jwt_encode E
            (<["exp" := VDatetime (now + 7 * day)]> {[ "sub" := VStr id ]})
            (SECRET_KEY E) "HS256"
  /\ get_current_user_sub E (Some ("Bearer " +:+ token)) now' = Ok (VStr id).
Proof.
  intros Hjose Hnow token.
  assert (Htok : token = jwt_encode E
            (<["exp" := VDatetime (now + 7 * day)]> {[ "sub" := VStr id ]})
            (SECRET_KEY E) "HS256") by reflexivity.
  split; [exact Htok|].
  destruct (Hjose id (now + 7 * day) (SECRET_KEY E) now') as [Hne Hdec].
  rewrite <- Htok in Hne, Hdec.
  clearbody token. unfold get_current_user_sub. simpl.
  change ("" +:+ token) with token.
  destruct (String.eqb_spec token "") as [Hempty|_]; [contradiction|].
  unfold ALGORITHM. rewrite Hdec.
  - unfold get. rewrite lookup_insert_ne, lookup_singleton_eq by done.
    reflexivity.
  - unfold timestamp. apply Z.div_le_mono; lia.
Qed.

Lemma issue_verify_roundtrip_witness :
  let token := create_access_token Sim.env {[ "sub" := VStr alice_id ]} None 0 in
  token = jwt_encode Sim.env
            (<["exp" := VDatetime (0 + 7 * day)]> {[ "sub" := VStr alice_id ]})
            (SECRET_KEY Sim.env) "HS256"
  /\ get_current_user_sub Sim.env (Some ("Bearer " +:+ token)) 0
     = Ok (VStr alice_id).
Proof.
  apply (issue_verify_roundtrip Sim.env alice_id 0 0 sim_roundtrip).
  unfold day. lia.
Defined.

(** ** C10: the admin gate *)

Lemma seed_sample_loop_no_http (todo : list (gmap string value)) (i : nat)
    (now : Z) (ids : nat -> ObjectId) (db : DB) (code : Z) (detail : string) :
  fst (seed_sample_loop todo i now ids db) <> HTTPException code detail.
Proof.
  revert i db. induction todo as [|s rest IH]; intros i db; simpl; [done|].
  unfold subscript. destruct (s !! "title"); [|done].
  destruct (find_one _ _); [apply IH|].
  destruct (insert_one _ _ _); [apply IH | done].
Qed.

Lemma seed_sample_loop_ok (todo : list (gmap string value)) (i : nat)
    (now : Z) (ids : nat -> ObjectId) (db : DB) :
  Forall (fun s => is_Some (s !! "title")) todo ->
  (forall j, (i <= j)%nat -> fresh (ids j) (wallpaper db)) ->
  (forall j k, j <> k -> ids j <> ids k) ->
  exists db', seed_sample_loop todo i now ids db = (Ok tt, db').
Proof.
  intros Htitles. revert i db.
  induction Htitles as [|s rest [title Ht] _ IH]; intros i db Hfresh Hinj; simpl.
  - eauto.
  - unfold subscript. rewrite Ht.
    destruct (find_one _ _).
    + apply IH; [|assumption]. intros j Hj. apply Hfresh. lia.
    + unfold insert_one. rewrite (Hfresh i) by lia.
      apply IH; [|assumption].
      intros j Hj. simpl. apply fresh_app; [apply Hfresh; lia|].
      apply Hinj. lia.
Qed.

Lemma samples_titles : Forall (fun s => is_Some (s !! "title")) samples.
Proof. unfold samples, sample. repeat constructor; by simplify_map_eq. Qed.

(** C10.  For every current user: when the role is not the string
    [admin], creating a wallpaper and seeding the samples both fail with 403
    and leave the database as it was; when the role is [admin], neither is
    refused with an HTTP error, and both succeed as soon as the ids the
    driver generates are new. *)
Theorem admin_gate (E : Env) (body : WallpaperCreate.t)
    (current_user : gmap string value) (now : Z) (new_id : ObjectId)
    (ids : nat -> ObjectId) (db : DB) :
  (get current_user "role" <> VStr "admin" ->
     admin_create_wallpaper E body current_user now new_id db
       = (HTTPException 403 "Admin only", db)
     /\ seed_sample current_user now ids db
       = (HTTPException 403 "Admin only", db))
  /\ (get current_user "role" = VStr "admin" ->
     (forall code detail,
        fst (admin_create_wallpaper E body current_user now new_id db)
          <> HTTPException code detail
        /\ fst (seed_sample current_user now ids db)
          <> HTTPException code detail)
     /\ (fresh new_id (wallpaper db) ->
         exists d db',
           admin_create_wallpaper E body current_user now new_id db
             = (Ok d, db'))
     /\ ((forall j, fresh (ids j) (wallpaper db)) ->
         (forall j k, j <> k -> ids j <> ids k) ->
         exists db',
           seed_sample current_user now ids db
             = (Ok {[ "status" := VStr "ok" ]}, db'))).
Proof.
  split.
  - intros Hrole. unfold admin_create_wallpaper, seed_sample.
    rewrite bool_decide_eq_false_2 by assumption. simpl. auto.
  - intros Hrole. unfold admin_create_wallpaper, seed_sample.
    rewrite bool_decide_eq_true_2 by assumption. cbn [negb].
    split; [|split].
    + intros code detail. split.
      * destruct (insert_one _ _ _); cbn [fst]; done.
      * pose proof (seed_sample_loop_no_http samples 0 now ids db) as Hno.
        destruct (seed_sample_loop samples 0 now ids db) as [[?|c d|?] db'];
          cbn [fst] in *; try done.
        exfalso. by apply (Hno c d).
    + intros Hfresh. unfold insert_one. rewrite Hfresh. eauto.
    + intros Hfresh Hinj.
      destruct (seed_sample_loop_ok samples 0 now ids db samples_titles)
        as (db' & Hloop); [auto | auto |].
      rewrite Hloop. eauto.
Qed.

Lemma admin_gate_witness :
  (admin_create_wallpaper Sim.env demo_wallpaper alice_me later 99%N demo_db
     = (HTTPException 403 "Admin only", demo_db)
   /\ seed_sample alice_me later demo_ids demo_db
     = (HTTPException 403 "Admin only", demo_db))
  /\ (exists d db',
        admin_create_wallpaper Sim.env demo_wallpaper
          (<["role" := VStr "admin"]> alice_me) later 99%N demo_db
          = (Ok d, db'))
  /\ (exists db',
        seed_sample (<["role" := VStr "admin"]> alice_me) later demo_ids demo_db
          = (Ok {[ "status" := VStr "ok" ]}, db')).
Proof.
  assert (Hrole : get (<["role" := VStr "admin"]> alice_me) "role"
                  = VStr "admin") by by_evaluation.
  destruct (proj2 (admin_gate Sim.env demo_wallpaper
                     (<["role" := VStr "admin"]> alice_me) later 99%N
                     demo_ids demo_db) Hrole) as (_ & Hcreate & Hseed).
  split; [|split].
  - apply (proj1 (admin_gate Sim.env demo_wallpaper alice_me later 99%N
                    demo_ids demo_db)).
    vm_compute. discriminate.
  - apply Hcreate. vm_compute. reflexivity.
  - apply Hseed.
    + intros j. unfold fresh, demo_ids.
      change (wallpaper demo_db) with [neon_wave].
      cbn [existsb neon_wave fst]. rewrite orb_false_r. apply N.eqb_neq. lia.
    + intros j k Hjk. unfold demo_ids. lia.
Defined.

(** What the client of [POST /admin/wallpapers] gets: the handler returns
    the document with the [_id] that [insert_one] added to it, an object id
    that the encoder of the response refuses.  The administrator is
    answered with a 500, and the wallpaper is in the catalogue. *)
Example admin_create_wallpaper_response :
  let r := serve Sim.env
             (PostAdminWallpapers (bearer (alice_token 0)) demo_wallpaper 20%N)
             0 db_admin in
  fst r = Raised "ValueError"
  /\ fst <$> wallpaper (snd r) = [10%N; 20%N].
Proof. split; by_evaluation. Qed.

(** What the client of [POST /auth/register] gets: the token, under the
    model [Token]. *)
Example register_response :
  fst (serve Sim.env (PostRegister alice 1%N) 0 empty_db)
  = Ok (Json (<["access_token" := VStr (alice_token 0)]>
                {[ "token_type" := VStr "bearer" ]})).
Proof. by_evaluation. Qed.

(** Seeding is idempotent by title: the catalogue already holds "Galactic
    Neon Wave", the first seeding adds the three other samples, the second
    adds nothing. *)
Example seed_sample_idempotent :
  let admin := <["role" := VStr "admin"]> alice_me in
  let db1 := snd (seed_sample admin later demo_ids demo_db) in
  let db2 := snd (seed_sample admin later (fun i => demo_ids (10 + i)) db1) in
  length (wallpaper db1) = 4%nat /\ db2 = db1.
Proof. split; by_evaluation. Qed.

(** * Further properties of the handlers *)

(** ** Collections, continued *)

Lemma find_one_None (q : list (string * value)) (c : list stored) :
  find_one q c = None <-> find q c = [].
Proof.
  unfold find. induction c as [|d c IH]; simpl; [done|].
  destruct (matches q d); [by split|]. exact IH.
Qed.

Lemma find_one_app (q : list (string * value)) (c : list stored) (x : stored) :
  find_one q (c ++ [x])
  = match find_one q c with
    | Some u => Some u
    | None => if matches q x then Some (to_py x) else None
    end.
Proof.
  induction c as [|d c IH]; simpl; [by destruct (matches q x)|].
  by destruct (matches q d).
Qed.

Lemma fresh_find_one (o : ObjectId) (c : list stored) :
  fresh o c <-> find_one [("_id", VObjectId o)] c = None.
Proof.
  unfold fresh. induction c as [|d c IH]; cbn [existsb find_one]; [done|].
  cbv beta.
  destruct (matches [("_id", VObjectId o)] d) eqn:Hm.
  - apply matches_id in Hm. subst o. rewrite N.eqb_refl.
    cbn [orb]. split; discriminate.
  - assert (fst d <> o) as Hne.
    { intros Heq. apply matches_id in Heq. congruence. }
    destruct (N.eqb _ o) eqn:He; [by apply N.eqb_eq in He|]. exact IH.
Qed.

Lemma insert_one_fresh (doc : gmap string value) (o : ObjectId)
    (c c' : list stored) :
  insert_one doc o c = Some c' -> fresh o c.
Proof. unfold insert_one, fresh. by case_match. Qed.

(** A document just inserted is found under its id. *)
Lemma find_one_insert_one (doc : gmap string value) (o : ObjectId)
    (c c' : list stored) :
  insert_one doc o c = Some c' ->
  find_one [("_id", VObjectId o)] c' = Some (to_py (o, doc)).
Proof.
  intros Hins. pose proof (insert_one_fresh _ _ _ _ Hins) as Hfresh.
  apply insert_one_Some in Hins. subst c'.
  rewrite find_one_app. apply fresh_find_one in Hfresh. rewrite Hfresh.
  assert (matches [("_id", VObjectId o)] (o, doc) = true) as ->
    by by apply matches_id.
  reflexivity.
Qed.

Lemma update_one_set_ids (q : list (string * value))
    (fields : gmap string value) (c : list stored) :
  fst <$> update_one_set q fields c = fst <$> c.
Proof.
  induction c as [|d c IH]; [done|]. cbn [update_one_set].
  destruct (matches q d); [done|]. rewrite !fmap_cons. by rewrite IH.
Qed.

(** [$set] rewrites at most one document, in place. *)
Lemma update_one_set_split (q : list (string * value))
    (fields : gmap string value) (c : list stored) :
  update_one_set q fields c = c
  \/ exists l1 d l2,
       c = l1 ++ d :: l2
       /\ matches q d = true
       /\ find_one q l1 = None
       /\ update_one_set q fields c = l1 ++ (fst d, fields ∪ snd d) :: l2.
Proof.
  induction c as [|d c IH]; simpl; [by left|].
  destruct (matches q d) eqn:Hm.
  - right. exists [], d, c. simpl. auto.
  - destruct IH as [-> | (l1 & d' & l2 & -> & Hm' & Hnone & ->)]; [by left|].
    right. exists (d :: l1), d', l2. simpl. rewrite Hm. auto.
Qed.

(** [$inc] rewrites at most one document, in place, and raises its counter
    by the amount. *)
Lemma update_one_inc_split (q : list (string * value)) (k : string)
    (amount : Z) (c c' : list stored) :
  update_one_inc q k amount c = Some c' ->
  c' = c
  \/ exists l1 d l2 n,
       c = l1 ++ d :: l2
       /\ matches q d = true
       /\ get_default (snd d) k (VInt 0) = VInt n
       /\ c' = l1 ++ (fst d, <[k := VInt (n + amount)]> (snd d)) :: l2.
Proof.
  revert c'. induction c as [|d c IH]; simpl; intros c'.
  - intros [= <-]. by left.
  - destruct (matches q d) eqn:Hm.
    + unfold inc_field, get_default.
      destruct (snd d !! k) as [[]|] eqn:Hk; try discriminate;
        intros [= <-]; right; exists [], d, c; eexists;
        (split; [reflexivity|]); (split; [assumption|]);
        rewrite Hk; (split; reflexivity).
    + destruct (update_one_inc q k amount c) as [c''|]; [|discriminate].
      intros [= <-].
      destruct (IH c'' eq_refl)
        as [-> | (l1 & d' & l2 & n & -> & Hm' & Hn & ->)]; [by left|].
      right. exists (d :: l1), d', l2, n. simpl. auto.
Qed.

(** ** What a request can write *)

Lemma seed_sample_loop_appends (todo : list (gmap string value)) (i : nat)
    (now : Z) (ids : nat -> ObjectId) (db : DB) :
  exists added,
    wallpaper (snd (seed_sample_loop todo i now ids db))
      = wallpaper db ++ added.
Proof.
  revert i db. induction todo as [|s rest IH]; intros i db;
    cbn [seed_sample_loop].
  - exists []. by rewrite app_nil_r.
  - destruct (subscript s "title"); try (exists []; by rewrite app_nil_r).
    destruct (find_one _ _); [apply IH|].
    destruct (insert_one _ _ _) as [c|] eqn:Hins;
      [|exists []; by rewrite app_nil_r].
    apply insert_one_Some in Hins.
    destruct (IH (S i) (set_wallpaper db c)) as (added & ->).
    cbn [set_wallpaper wallpaper]. subst c. rewrite <- app_assoc. eauto.
Qed.

(** What a request can do to the users, request by request. *)
Lemma serve_users (E : Env) (req : request) (now : Z) (db : DB) :
  let db' := snd (serve E req now db) in
  user db' = user db
  \/ (exists body new_id,
        req = PostRegister body new_id
        /\ find_one [("email", VStr (RegisterRequest.email body))] (user db)
           = None
        /\ fresh new_id (user db)
        /\ user db' = user db ++ [(new_id, registration_doc E body now)])
  \/ (exists authorization body l1 d l2,
        req = PostSubscribe authorization body
        /\ user db = l1 ++ d :: l2
        /\ user db'
           = l1 ++ (fst d,
                    subscription_fields (SubscriptionRequest.plan body) now
                      ∪ snd d) :: l2).
Proof.
  destruct req as [body new_id|body|auth|auth body|cat lim auth|auth wid
                  |auth body new_id|auth ids]; cbn zeta; cbn [serve json snd].
  - unfold register.
    destruct (find_one _ _) eqn:Hfind; [by left|].
    destruct (insert_one _ _ _) eqn:Hins; [|by left].
    pose proof (insert_one_fresh _ _ _ _ Hins) as Hfresh.
    apply insert_one_Some in Hins. subst. right. left.
    exists body, new_id. auto.
  - by left.
  - left. unfold depends. by destruct (get_current_user _ _ _ _).
  - unfold depends. destruct (get_current_user _ _ _ _) as [u| |];
      [|by left|by left].
    unfold subscribe. destruct (negb _); [by left|].
    destruct (_ ≫= _) as [oid| |]; [|by left|by left].
    cbn [snd set_user user].
    destruct (update_one_set_split [("_id", VObjectId oid)]
                (subscription_fields (SubscriptionRequest.plan body) now)
                (user db))
      as [Hsame | (l1 & d & l2 & Hc & _ & _ & Hupd)].
    + left. exact Hsame.
    + right. right. exists auth, body, l1, d, l2. auto.
  - by left.
  - left. unfold depends. destruct (get_current_user _ _ _ _) as [u| |];
      [|done|done].
    unfold download_wallpaper. destruct (ObjectId_new _); [|done|done].
    destruct (find_one _ _); [|done]. destruct (negb _); [done|].
    by destruct (update_one_inc _ _ _ _).
  - left. unfold depends. destruct (get_current_user _ _ _ _) as [u| |];
      [|done|done].
    unfold admin_create_wallpaper. destruct (negb _); [done|].
    by destruct (insert_one _ _ _).
  - left. unfold depends. destruct (get_current_user _ _ _ _) as [u| |];
      [|done|done].
    unfold seed_sample. destruct (negb _); [done|].
    pose proof (seed_sample_loop_user samples 0 now ids db) as Hloop.
    by destruct (seed_sample_loop samples 0 now ids db) as [[?|? ?|?] ?].
Qed.

(** X1.  No request deletes a user, and none rewrites a user beyond the
    subscription fields.  A request leaves the users as they are, or it is
    a registration for an address not yet stored, which appends the
    registration document under a new id, or it is a subscription, which
    lays the four subscription fields over one stored user, in place. *)
Theorem users_frame (E : Env) (req : request) (now : Z) (db : DB) :
  let db' := snd (serve E req now db) in
  user db' = user db
  \/ (exists body new_id,
        req = PostRegister body new_id
        /\ find_one [("email", VStr (RegisterRequest.email body))] (user db)
           = None
        /\ fresh new_id (user db)
        /\ user db' = user db ++ [(new_id, registration_doc E body now)])
  \/ (exists authorization body l1 d l2,
        req = PostSubscribe authorization body
        /\ user db = l1 ++ d :: l2
        /\ user db'
           = l1 ++ (fst d,
                    subscription_fields (SubscriptionRequest.plan body) now
                      ∪ snd d) :: l2).
Proof.
  cbn zeta.
  destruct (serve_users E req now db) as [Hsame | [Hreg | Hsub]].
  - by left.
  - right. by left.
  - right. by right.
Qed.

(** X2.  No request deletes or rewrites a wallpaper, but for the download
    counter.  A request appends wallpapers to the catalogue (only the two
    admin operations append any), or it is a download, which raises the
    counter of one stored wallpaper by exactly one, in place. *)
Theorem wallpapers_frame (E : Env) (req : request) (now : Z) (db : DB) :
  let db' := snd (serve E req now db) in
  (exists added,
     wallpaper db' = wallpaper db ++ added
     /\ (added = []
         \/ (exists authorization body new_id,
               req = PostAdminWallpapers authorization body new_id)
         \/ (exists authorization ids, req = PostAdminSeed authorization ids)))
  \/ (exists authorization wallpaper_id l1 d l2 n,
        req = GetDownload authorization wallpaper_id
        /\ wallpaper db = l1 ++ d :: l2
        /\ downloads (to_py d) = VInt n
        /\ wallpaper db'
           = l1 ++ (fst d, <["downloads" := VInt (n + 1)]> (snd d)) :: l2).
Proof.
  assert (Hsame : forall db' : DB, wallpaper db' = wallpaper db ->
            exists added, wallpaper db' = wallpaper db ++ added
              /\ (added = []
                  \/ (exists authorization body new_id,
                        req = PostAdminWallpapers authorization body new_id)
                  \/ (exists authorization ids,
                        req = PostAdminSeed authorization ids))).
  { intros db' ->. exists []. rewrite app_nil_r. auto. }
  destruct req as [body new_id|body|auth|auth body|cat lim auth|auth wid
                  |auth body new_id|auth ids]; cbn zeta; cbn [serve json snd].
  - left. apply Hsame. unfold register. destruct (find_one _ _); [done|].
    by destruct (insert_one _ _ _).
  - left. by apply Hsame.
  - left. apply Hsame. unfold depends. by destruct (get_current_user _ _ _ _).
  - left. apply Hsame. unfold depends.
    destruct (get_current_user _ _ _ _); [|done|done].
    unfold subscribe. destruct (negb _); [done|].
    by destruct (_ ≫= _).
  - left. by apply Hsame.
  - unfold depends. destruct (get_current_user _ _ _ _) as [u| |];
      [|left; by apply Hsame|left; by apply Hsame].
    unfold download_wallpaper.
    destruct (ObjectId_new _) as [oid| |];
      [|left; by apply Hsame|left; by apply Hsame].
    destruct (find_one _ _); [|left; by apply Hsame].
    destruct (negb _); [left; by apply Hsame|].
    destruct (update_one_inc _ _ _ _) as [c'|] eqn:Hinc;
      [|left; by apply Hsame].
    cbn [snd set_wallpaper wallpaper].
    destruct (update_one_inc_split _ _ _ _ _ Hinc)
      as [-> | (l1 & d & l2 & n & Hc & _ & Hn & ->)].
    + left. by apply Hsame.
    + right. exists auth, wid, l1, d, l2, n.
      split; [done|]. split; [done|]. split; [|done].
      unfold downloads, get_default. rewrite to_py_other by done. exact Hn.
  - left. unfold depends. destruct (get_current_user _ _ _ _) as [u| |];
      [|by apply Hsame|by apply Hsame].
    unfold admin_create_wallpaper. destruct (negb _); [by apply Hsame|].
    destruct (insert_one _ _ _) eqn:Hins; [|by apply Hsame].
    apply insert_one_Some in Hins. subst. cbn [snd set_wallpaper wallpaper].
    eexists. split; [reflexivity|]. right. left. eauto.
  - left. unfold depends. destruct (get_current_user _ _ _ _) as [u| |];
      [|by apply Hsame|by apply Hsame].
    unfold seed_sample. destruct (negb _); [by apply Hsame|].
    destruct (seed_sample_loop_appends samples 0 now ids db) as (added & Hadd).
    exists added. split; [|right; right; eauto].
    by destruct (seed_sample_loop samples 0 now ids db) as [[?|? ?|?] ?].
Qed.

(** ** Addresses and roles *)

Lemma matches_subscription_fields (k : string) (v : value) (plan : string)
    (now : Z) (d : stored) :
  subscription_fields plan now !! k = None ->
  matches [(k, v)] (fst d, subscription_fields plan now ∪ snd d)
  = matches [(k, v)] d.
Proof.
  intros Hk. unfold matches. cbn [forallb fst snd]. f_equal.
  destruct (decide (k = "_id")) as [->|Hne].
  - by rewrite !to_py_id.
  - rewrite !to_py_other by done. cbn [snd]. by rewrite lookup_union_r.
Qed.

(** The number of users stored under an address changes only when that
    address registers, from none to one. *)
Lemma serve_emails (E : Env) (req : request) (now : Z) (db : DB) (e : string) :
  let n := length (find [("email", VStr e)] (user db)) in
  let n' := length (find [("email", VStr e)] (user (snd (serve E req now db)))) in
  n' = n \/ (n = 0%nat /\ n' = 1%nat).
Proof.
  cbn zeta.
  destruct (serve_users E req now db)
    as [-> | [(body & new_id & _ & Hnone & _ & ->)
             | (auth & body & l1 & d & l2 & _ & -> & ->)]].
  - by left.
  - unfold find. rewrite List.filter_app, length_app. cbn [List.filter].
    destruct (matches _ (new_id, _)) eqn:Hm; cbn [length]; [|left; lia].
    right. unfold matches in Hm. cbn [forallb fst snd] in Hm.
    rewrite andb_true_r, bool_decide_eq_true in Hm.
    rewrite to_py_other in Hm by done. unfold registration_doc in Hm.
    cbn [snd] in Hm. simplify_map_eq.
    apply find_one_None in Hnone. unfold find in Hnone.
    rewrite Hnone. done.
  - left. unfold find. rewrite !List.filter_app, !length_app.
    cbn [List.filter].
    rewrite (matches_subscription_fields "email") by done.
    by destruct (matches _ d).
Qed.

(** X3.  Whatever requests are served, no two stored users come to share
    an address: registration looks the address up before it inserts, and
    nothing else writes an address. *)
Theorem unique_emails_kept (E : Env) (reqs : list (request * Z)) (db : DB) :
  unique_emails (user db) -> unique_emails (user (run E reqs db)).
Proof.
  revert db. induction reqs as [|[req now] rest IH]; intros db Huniq;
    cbn [run]; [assumption|].
  apply IH. intros e. specialize (Huniq e).
  destruct (serve_emails E req now db e) as [-> | [_ ->]]; lia.
Qed.

Lemma unique_emails_kept_witness :
  unique_emails
    (user (run Sim.env
             [(PostRegister alice 1%N, 0);
              (PostRegister alice 2%N, 5);
              (PostSubscribe (bearer (alice_token 0))
                 (SubscriptionRequest.mk "pro"), 7)]
             empty_db)).
Proof.
  apply (unique_emails_kept Sim.env). intros e. cbn. lia.
Defined.

(** X4.  An address, once registered, stays taken: whatever requests are
    served afterwards, registering it again is refused with 400 and writes
    nothing. *)
Theorem registered_email_stays_taken (E : Env) (reqs : list (request * Z))
    (db : DB) (body : RegisterRequest.t) (now : Z) (new_id : ObjectId) :
  find_one [("email", VStr (RegisterRequest.email body))] (user db) <> None ->
  register E body now new_id (run E reqs db)
  = (HTTPException 400 "Email already registered", run E reqs db).
Proof.
  intros Htaken.
  assert (Hkept : find_one [("email", VStr (RegisterRequest.email body))]
                    (user (run E reqs db)) <> None).
  { revert db Htaken. induction reqs as [|[req now'] rest IH]; intros db Htaken;
      cbn [run]; [assumption|].
    apply IH. intros Hempty. apply Htaken.
    apply find_one_None in Hempty. apply find_one_None.
    pose proof (serve_emails E req now' db (RegisterRequest.email body)) as Hn.
    cbn zeta in Hn. rewrite Hempty in Hn. cbn [length] in Hn.
    destruct (find _ (user db)); [done|]. cbn [length] in Hn. lia. }
  clear Htaken. unfold register.
  destruct (find_one _ _); [reflexivity | contradiction].
Qed.

Lemma registered_email_stays_taken_witness :
  register Sim.env alice later 7%N
    (run Sim.env
       [(PostSubscribe (bearer (alice_token 0)) (SubscriptionRequest.mk "pro"), 0);
        (PostRegister (RegisterRequest.mk "Bob" "b@x.com" "pw2") 2%N, 9)]
       db_registered)
  = (HTTPException 400 "Email already registered",
     run Sim.env
       [(PostSubscribe (bearer (alice_token 0)) (SubscriptionRequest.mk "pro"), 0);
        (PostRegister (RegisterRequest.mk "Bob" "b@x.com" "pw2") 2%N, 9)]
       db_registered).
Proof.
  apply (registered_email_stays_taken Sim.env).
  by_evaluation.
Defined.

(** X5.  The API makes no administrator.  If every stored user has the
    role [user], it stays so whatever requests are served, and both admin
    operations are then refused to every caller: they answer no success and
    write nothing. *)
Theorem no_admin_from_api (E : Env) (db : DB) :
  only_users (user db) ->
  (forall reqs, only_users (user (run E reqs db)))
  /\ (forall authorization now body new_id ids,
        (forall r,
           fst (serve E (PostAdminWallpapers authorization body new_id) now db)
             <> Ok r)
        /\ snd (serve E (PostAdminWallpapers authorization body new_id) now db)
           = db
        /\ (forall r,
              fst (serve E (PostAdminSeed authorization ids) now db) <> Ok r)
        /\ snd (serve E (PostAdminSeed authorization ids) now db) = db).
Proof.
  intros Hroles. split.
  - intros reqs. revert db Hroles.
    induction reqs as [|[req now] rest IH]; intros db Hroles; cbn [run];
      [assumption|].
    apply IH. unfold only_users in *.
    destruct (serve_users E req now db)
      as [-> | [(body & new_id & _ & _ & _ & ->)
               | (auth & body & l1 & d & l2 & _ & Hc & ->)]].
    + assumption.
    + apply Forall_app. split; [assumption|]. constructor; [|constructor].
      unfold registration_doc. by simplify_map_eq.
    + rewrite Hc in Hroles. apply Forall_app in Hroles as [H1 H2].
      apply Forall_cons in H2 as [Hd H2].
      apply Forall_app. split; [assumption|]. constructor; [|assumption].
      cbn [snd]. by rewrite lookup_union_r.
  - intros authorization now body new_id ids.
    assert (Hgate : forall u,
              get_current_user E authorization now db = Ok u ->
              negb (bool_decide (get u "role" = VStr "admin")) = true).
    { intros u Hu.
      destruct (get_current_user_Ok E authorization now db u Hu)
        as (d & Hin & _ & ->).
      unfold only_users in Hroles. rewrite Forall_forall in Hroles.
      apply list_elem_of_In, Hroles in Hin.
      unfold get.
      rewrite lookup_delete_ne, lookup_insert_ne, to_py_other, Hin by done.
      reflexivity. }
    cbn [serve json fst snd]. unfold depends.
    destruct (get_current_user E authorization now db) as [u| |] eqn:Hu;
      [|by repeat split..].
    unfold admin_create_wallpaper, seed_sample. rewrite (Hgate u eq_refl).
    by repeat split.
Qed.

Lemma no_admin_from_api_witness :
  only_users
    (user (run Sim.env
             [(PostRegister alice 1%N, 0);
              (PostSubscribe (bearer (alice_token 0))
                 (SubscriptionRequest.mk "elite"), 3)]
             empty_db))
  /\ snd (serve Sim.env (PostAdminSeed (bearer (alice_token 0)) demo_ids) 0
            empty_db)
     = empty_db.
Proof.
  assert (Hempty : only_users (user empty_db)) by constructor.
  split.
  - apply (proj1 (no_admin_from_api Sim.env empty_db Hempty)).
  - apply (proj2 (no_admin_from_api Sim.env empty_db Hempty)
             (bearer (alice_token 0)) 0 demo_wallpaper 0%N demo_ids).
Defined.

(** ** Failures write nothing *)

Lemma json_http (r : result (gmap string value) * DB) (code : Z)
    (detail : string) :
  fst (json r) = HTTPException code detail ->
  fst r = HTTPException code detail.
Proof.
  destruct r as [[d|? ?|?] ?]; cbn [json fst mbind result_bind];
    try congruence.
  unfold jsonable_encoder. by case_bool_decide.
Qed.

Lemma Token_http (r : result (gmap string value) * DB) (code : Z)
    (detail : string) :
  fst (Token r) = HTTPException code detail ->
  fst r = HTTPException code detail.
Proof.
  destruct r as [[d|? ?|?] ?]; cbn [Token fst mbind result_bind];
    try congruence.
  destruct (d !! "access_token") as [[]|]; try discriminate.
  by destruct (get_default d "token_type" (VStr "bearer")).
Qed.

(** X6.  A request answered with an HTTP error leaves the database exactly
    as it was: every 400, 401, 402, 403 and 404 is raised before the first
    write. *)
Theorem http_error_writes_nothing (E : Env) (req : request) (now : Z) (db : DB)
    (code : Z) (detail : string) :
  fst (serve E req now db) = HTTPException code detail ->
  snd (serve E req now db) = db.
Proof.
  destruct req as [body new_id|body|auth|auth body|cat lim auth|auth wid
                  |auth body new_id|auth ids]; cbn [serve];
    try (intros H; apply json_http in H; revert H); cbn [json snd].
  - intros H. apply Token_http in H. revert H. cbn [Token snd].
    unfold register. destruct (find_one _ _); [done|].
    by destruct (insert_one _ _ _).
  - done.
  - intros _. by apply depends_unchanged.
  - unfold depends. destruct (get_current_user _ _ _ _); [|done..].
    unfold subscribe. destruct (negb _); [done|].
    by destruct (subscript _ _ ≫= _).
  - done.
  - unfold depends. destruct (get_current_user _ _ _ _); [|done..].
    unfold download_wallpaper. destruct (ObjectId_new _); [|done..].
    destruct (find_one _ _); [|done]. destruct (negb _); [done|].
    by destruct (update_one_inc _ _ _ _).
  - unfold depends. destruct (get_current_user _ _ _ _); [|done..].
    unfold admin_create_wallpaper. destruct (negb _); [done|].
    by destruct (insert_one _ _ _).
  - unfold depends. destruct (get_current_user _ _ _ _); [|done..].
    unfold seed_sample. destruct (negb _); [done|].
    pose proof (seed_sample_loop_no_http samples 0 now ids db) as Hno.
    destruct (seed_sample_loop samples 0 now ids db) as [[?|c d|?] db'];
      cbn [fst snd] in *; try done.
    exfalso. by apply (Hno c d).
Qed.

Lemma http_error_writes_nothing_witness :
  snd (serve Sim.env (GetDownload (bearer (alice_token 0)) neon_wave_id) 0
         (set_wallpaper db_registered [neon_wave]))
  = set_wallpaper db_registered [neon_wave].
Proof.
  apply (http_error_writes_nothing Sim.env
           (GetDownload (bearer (alice_token 0)) neon_wave_id) 0
           (set_wallpaper db_registered [neon_wave]) 402
           "Subscription required for full-resolution download").
  by_evaluation.
Defined.

(** ** Registration, login and the token *)

(** A token issued for a subject decodes to it until its expiry. *)
Lemma issued_token_decodes (E : Env) (id : string) (now now' : Z) :
  jose_roundtrip E ->
  now <= now' <= now + 7 * day ->
  let token := create_access_token E {[ "sub" := VStr id ]} None now in
  token <> ""
  /\ jwt_decode E token (SECRET_KEY E) [ALGORITHM] now'
     = Decoded (<["exp" := VInt (timestamp (now + 7 * day))]>
                  {[ "sub" := VStr id ]}).
Proof.
  intros Hjose Hnow token.
  destruct (Hjose id (now + 7 * day) (SECRET_KEY E) now') as [Hne Hdec].
  split; [exact Hne|]. apply Hdec.
  unfold timestamp. apply Z.div_le_mono; lia.
Qed.

(** What a successful registration returns and leaves. *)
Lemma register_Ok (E : Env) (body : RegisterRequest.t) (now : Z)
    (new_id : ObjectId) (db : DB) (r : gmap string value) (db1 : DB) :
  register E body now new_id db = (Ok r, db1) ->
  find_one [("email", VStr (RegisterRequest.email body))] (user db) = None
  /\ fresh new_id (user db)
  /\ r = {[ "access_token" :=
              VStr (create_access_token E
                      {[ "sub" := VStr (ObjectId_str new_id) ]} None now) ]}
  /\ db1 = set_user db (user db ++ [(new_id, registration_doc E body now)]).
Proof.
  unfold register. destruct (find_one _ _) eqn:Hfind; [discriminate|].
  destruct (insert_one _ _ _) as [c|] eqn:Hins; [|discriminate].
  pose proof (insert_one_fresh _ _ _ _ Hins) as Hfresh.
  apply insert_one_Some in Hins. subst c. intros [= <- <-]. auto.
Qed.

Lemma ObjectId_str_nonempty (o : ObjectId) : ObjectId_str o <> "".
Proof.
  intros Heq. apply (f_equal String.length) in Heq.
  unfold ObjectId_str in Heq. rewrite hex_digits_length in Heq.
  simpl in Heq. lia.
Qed.

(** A token issued for a stored user authenticates as that user. *)
Lemma issued_token_authenticates (E : Env) (o : ObjectId)
    (u : gmap string value) (now now' : Z) (db : DB) :
  jose_roundtrip E ->
  (o < 2 ^ 96)%N ->
  now <= now' <= now + 7 * day ->
  find_one [("_id", VObjectId o)] (user db) = Some u ->
  let authorization :=
    Some ("Bearer " +:+
          create_access_token E {[ "sub" := VStr (ObjectId_str o) ]} None now) in
  get_current_user E authorization now' db
    = Ok (delete "_id" (<["id" := VStr (ObjectId_str o)]> u))
  /\ list_wallpapers_subscribed E authorization now' db
     = truthy (get u "subscribed").
Proof.
  intros Hjose Hid Hnow Hfind authorization. subst authorization.
  destruct (issued_token_decodes E (ObjectId_str o) now now' Hjose Hnow)
    as [Hne Hdec].
  destruct (find_one_Some _ _ _ Hfind) as (d & _ & Hm & Hu).
  apply matches_id in Hm.
  split.
  - unfold get_current_user.
    rewrite (bearer_header E _ now' _ Hne Hdec).
    unfold get. rewrite lookup_insert_ne, lookup_singleton_eq by done.
    cbv [from_option id]. rewrite bool_decide_eq_false_2 by done.
    cbn [mbind result_bind]. unfold get_current_user_record, ObjectId_new.
    rewrite (ObjectId_of_str_str o Hid). cbn [mbind result_bind].
    rewrite Hfind. unfold subscript. rewrite Hu, to_py_id, Hm. reflexivity.
  - unfold list_wallpapers_subscribed. simpl.
    match goal with
    | |- context [jwt_decode E ("" +:+ ?t)] => change ("" +:+ t) with t
    end.
    rewrite Hdec. unfold get at 1 2.
    rewrite lookup_insert_ne, lookup_singleton_eq by done.
    cbv [from_option id]. cbn [truthy].
    destruct (String.eqb_spec (ObjectId_str o) "") as [Hempty|_];
      [by apply ObjectId_str_nonempty in Hempty|].
    cbn [negb]. unfold ObjectId_new.
    by rewrite (ObjectId_of_str_str o Hid), Hfind.
Qed.

(** X7.  The token a registration returns authenticates the new user: at
    once, and at any instant of the following seven days, [get_current_user]
    accepts it and returns the user just stored, with the key [id] holding
    the new object id. *)
Theorem register_then_authenticate (E : Env) (body : RegisterRequest.t)
    (now now' : Z) (new_id : ObjectId) (db db1 : DB) (r : gmap string value) :
  jose_roundtrip E ->
  (new_id < 2 ^ 96)%N ->
  register E body now new_id db = (Ok r, db1) ->
  now <= now' <= now + 7 * day ->
  exists token,
    r = {[ "access_token" := VStr token ]}
    /\ get_current_user E (Some ("Bearer " +:+ token)) now' db1
       = Ok (<["id" := VStr (ObjectId_str new_id)]>
               (registration_doc E body now)).
Proof.
  intros Hjose Hid Hreg Hnow.
  destruct (register_Ok E body now new_id db r db1 Hreg)
    as (Hnone & Hfresh & -> & ->).
  eexists. split; [reflexivity|].
  assert (Hfind : find_one [("_id", VObjectId new_id)]
                    (user (set_user db
                             (user db ++ [(new_id, registration_doc E body now)])))
                  = Some (to_py (new_id, registration_doc E body now))).
  { cbn [set_user user]. rewrite find_one_app.
    apply fresh_find_one in Hfresh. rewrite Hfresh.
    assert (matches [("_id", VObjectId new_id)]
              (new_id, registration_doc E body now) = true) as ->
      by by apply matches_id.
    reflexivity. }
  destruct (issued_token_authenticates E new_id _ now now' _ Hjose Hid Hnow Hfind)
    as [-> _].
  reflexivity.
Qed.

Lemma register_then_authenticate_witness :
  exists token,
    fst (register Sim.env alice 0 1%N empty_db)
      = Ok {[ "access_token" := VStr token ]}
    /\ get_current_user Sim.env (Some ("Bearer " +:+ token)) (3 * day)
         db_registered
       = Ok (<["id" := VStr (ObjectId_str 1%N)]>
               (registration_doc Sim.env alice 0)).
Proof.
  destruct (register_then_authenticate Sim.env alice 0 (3 * day) 1%N empty_db
              db_registered
              {[ "access_token" := VStr (alice_token 0) ]} sim_roundtrip)
    as (token & Hr & Hauth).
  - reflexivity.
  - by_evaluation.
  - unfold day. lia.
  - exists token. split; [|exact Hauth].
    rewrite <- Hr. by_evaluation.
Defined.

(** X8.  After a successful registration the same address and password
    log in (with a password context that verifies a password against its
    own hash), and the token of the login names the user just created. *)
Theorem register_then_login (E : Env) (body : RegisterRequest.t)
    (now now' : Z) (new_id : ObjectId) (db db1 : DB) (r : gmap string value) :
  passlib_verifies E ->
  register E body now new_id db = (Ok r, db1) ->
  login E (LoginRequest.mk (RegisterRequest.email body)
             (RegisterRequest.password body)) now' db1
  = Ok {[ "access_token" :=
            VStr (create_access_token E
                    {[ "sub" := VStr (ObjectId_str new_id) ]} None now') ]}.
Proof.
  intros Hpwd Hreg.
  destruct (register_Ok E body now new_id db r db1 Hreg)
    as (Hnone & Hfresh & -> & ->).
  unfold login. cbn [LoginRequest.email LoginRequest.password set_user user].
  rewrite find_one_app, Hnone.
  assert (matches [("email", VStr (RegisterRequest.email body))]
            (new_id, registration_doc E body now) = true) as ->.
  { unfold matches. cbn [forallb fst snd]. rewrite andb_true_r.
    apply bool_decide_eq_true. rewrite to_py_other by done.
    unfold registration_doc. by simplify_map_eq. }
  assert (get_default (to_py (new_id, registration_doc E body now))
            "password_hash" (VStr "")
          = VStr (hash_password E (RegisterRequest.password body))) as ->.
  { unfold get_default. rewrite to_py_other by done.
    unfold registration_doc. by simplify_map_eq. }
  unfold verify_password, hash_password. rewrite Hpwd.
  cbn [mbind result_bind negb].
  unfold subscript. rewrite to_py_id. reflexivity.
Qed.

Lemma sim_verifies : passlib_verifies Sim.env.
Proof.
  intros p. simpl. unfold Sim.verify.
  change ("$" +:+ p) with (String "$" p). by rewrite String.eqb_refl.
Qed.

Lemma register_then_login_witness :
  login Sim.env (LoginRequest.mk "a@x.com" "pw") later db_registered
  = Ok {[ "access_token" :=
            VStr (create_access_token Sim.env
                    {[ "sub" := VStr (ObjectId_str 1%N) ]} None later) ]}.
Proof.
  apply (register_then_login Sim.env alice 0 later 1%N empty_db db_registered
           {[ "access_token" := VStr (alice_token 0) ]} sim_verifies).
  by_evaluation.
Defined.

(** X9.  A login succeeds only for the stored user the lookup by address
    finds, when the stored hash of that user verifies the password, and its
    token names that user; every refusal is the same 401 "Invalid
    credentials", for an unknown address as for a wrong password. *)
Theorem login_sound (E : Env) (body : LoginRequest.t) (now : Z) (db : DB) :
  (forall r,
     login E body now db = Ok r ->
     exists d hashed,
       In d (user db)
       /\ find_one [("email", VStr (LoginRequest.email body))] (user db)
          = Some (to_py d)
       /\ get_default (snd d) "password_hash" (VStr "") = VStr hashed
       /\ verify_password E (LoginRequest.password body) (VStr hashed)
          = Ok true
       /\ r = {[ "access_token" :=
                   VStr (create_access_token E
                           {[ "sub" := VStr (ObjectId_str (fst d)) ]}
                           None now) ]})
  /\ (forall code detail,
        login E body now db = HTTPException code detail ->
        code = 401 /\ detail = "Invalid credentials")
  /\ (find_one [("email", VStr (LoginRequest.email body))] (user db) = None ->
      login E body now db = HTTPException 401 "Invalid credentials").
Proof.
  unfold login.
  destruct (find_one _ _) as [u|] eqn:Hfind.
  2: { split; [intros r; discriminate|].
       split; [by intros code detail [= <- <-]|done]. }
  destruct (find_one_Some _ _ _ Hfind) as (d & Hin & Hm & ->).
  unfold matches in Hm. cbn [forallb fst snd] in Hm.
  rewrite andb_true_r, bool_decide_eq_true, to_py_other in Hm by done.
  unfold get_default. rewrite to_py_other by done.
  unfold subscript. rewrite to_py_id. cbn [mbind result_bind str].
  split; [|split; [|done]].
  - intros r.
    destruct (default (VStr "") (snd d !! "password_hash")) as [| | |s| | |]
      eqn:Hhash; try discriminate.
    destruct (verify_password E (LoginRequest.password body) (VStr s))
      as [[]| |] eqn:Hv; cbn [negb mbind result_bind str]; try discriminate.
    intros [= <-]. exists d, s. unfold get_default. rewrite Hhash. auto.
  - intros code detail.
    assert (Hv : forall v c t,
              verify_password E (LoginRequest.password body) v
              <> HTTPException c t).
    { intros v c t. unfold verify_password.
      destruct v; try discriminate. by destruct (pwd_context_verify E _ _). }
    destruct (verify_password E _ _) as [[]|c t|] eqn:Hvp;
      cbn [negb mbind result_bind]; try discriminate.
    + by intros [= <- <-].
    + by apply Hv in Hvp.
Qed.

Lemma login_sound_witness :
  (exists d hashed,
     In d (user db_registered)
     /\ find_one [("email", VStr "a@x.com")] (user db_registered)
        = Some (to_py d)
     /\ get_default (snd d) "password_hash" (VStr "") = VStr hashed
     /\ verify_password Sim.env "pw" (VStr hashed) = Ok true
     /\ ({[ "access_token" := VStr (alice_token later) ]}
           : gmap string value)
        = {[ "access_token" :=
               VStr (create_access_token Sim.env
                       {[ "sub" := VStr (ObjectId_str (fst d)) ]} None later) ]})
  /\ login Sim.env (LoginRequest.mk "a@x.com" "wrong") later db_registered
     = HTTPException 401 "Invalid credentials"
  /\ login Sim.env (LoginRequest.mk "nobody@x.com" "pw") later db_registered
     = HTTPException 401 "Invalid credentials".
Proof.
  split; [|split].
  - apply (proj1 (login_sound Sim.env (LoginRequest.mk "a@x.com" "pw") later
                    db_registered)).
    by_evaluation.
  - by_evaluation.
  - apply (proj2 (proj2 (login_sound Sim.env
             (LoginRequest.mk "nobody@x.com" "pw") later db_registered))).
    by_evaluation.
Defined.

(** A stored hash that is [None] verifies no password: 401.  A hash that
    the password context does not recognise is an exception of passlib,
    which [login] does not catch. *)
Example login_odd_hashes :
  login Sim.env (LoginRequest.mk "n@x.com" "pw") 0 db_odd_hashes
    = HTTPException 401 "Invalid credentials"
  /\ login Sim.env (LoginRequest.mk "u@x.com" "plain") 0 db_odd_hashes
     = Raised "UnknownHashError".
Proof. split; by_evaluation. Qed.

(** X10.  A token stops working when its seven days are over (with a codec
    that refuses a token past its expiry): from the first second after the
    expiry on, [get_current_user] answers 401 "Invalid token" and the
    listing treats the caller as anonymous. *)
Theorem token_rejected_after_expiry (E : Env) (id : string) (now now' : Z)
    (db : DB) :
  jose_roundtrip E ->
  jose_expiry E ->
  timestamp (now + 7 * day) < timestamp now' ->
  let authorization :=
    Some ("Bearer " +:+ create_access_token E {[ "sub" := VStr id ]} None now) in
  get_current_user E authorization now' db = HTTPException 401 "Invalid token"
  /\ list_wallpapers_subscribed E authorization now' db = false.
Proof.
  intros Hjose Hexp Hlate authorization.
  destruct (Hjose id (now + 7 * day) (SECRET_KEY E) now') as [Hne _].
  pose proof (Hexp id (now + 7 * day) (SECRET_KEY E) now' Hlate) as Hdec.
  subst authorization.
  set (token := create_access_token E {[ "sub" := VStr id ]} None now).
  change (jwt_encode E _ (SECRET_KEY E) "HS256") with token in Hne, Hdec.
  clearbody token. split.
  - unfold get_current_user, get_current_user_sub. simpl.
    change ("" +:+ token) with token.
    destruct (String.eqb_spec token "") as [Hempty|_]; [contradiction|].
    unfold ALGORITHM. by rewrite Hdec.
  - unfold list_wallpapers_subscribed. simpl.
    change ("" +:+ token) with token. unfold ALGORITHM. by rewrite Hdec.
Qed.

Lemma sim_expiry : jose_expiry Sim.env.
Proof.
  intros sub exp key now Hlate. simpl. unfold Sim.encode, Sim.decode.
  rewrite lookup_insert_eq, lookup_insert_ne, lookup_singleton_eq by done.
  rewrite nested_enc_Z, dec_Z_enc_Z.
  destruct (Z.ltb_spec (timestamp exp) (timestamp now)); [reflexivity|lia].
Qed.

Lemma token_rejected_after_expiry_witness :
  get_current_user Sim.env
    (Some ("Bearer " +:+
           create_access_token Sim.env {[ "sub" := VStr alice_id ]} None 0))
    (7 * day + 1000000) demo_db
  = HTTPException 401 "Invalid token"
  /\ list_wallpapers_subscribed Sim.env
       (Some ("Bearer " +:+
              create_access_token Sim.env {[ "sub" := VStr alice_id ]} None 0))
       (7 * day + 1000000) demo_db
     = false.
Proof.
  apply (token_rejected_after_expiry Sim.env alice_id 0 (7 * day + 1000000)
           demo_db sim_roundtrip sim_expiry).
  by_evaluation.
Defined.

(** ** Edges of the authentication *)

(** X11.  A token that decodes, with a subject that is not the text of an
    object id, is not answered with 401: [get_current_user] raises
    [InvalidId] outside its [try], so every endpoint that depends on it
    fails with an unhandled exception and writes nothing, whereas the
    listing swallows the same failure and treats the caller as anonymous. *)
Theorem subject_not_an_object_id (E : Env) (token : string) (now : Z) (db : DB)
    (payload : gmap string value) (sub : string) :
  token <> "" ->
  jwt_decode E token (SECRET_KEY E) [ALGORITHM] now = Decoded payload ->
  payload !! "sub" = Some (VStr sub) ->
  ObjectId_of_str sub = None ->
  get_current_user E (Some ("Bearer " +:+ token)) now db = Raised "InvalidId"
  /\ (forall (A : Type) (handler : gmap string value -> DB -> result A * DB),
        depends E (Some ("Bearer " +:+ token)) now db handler
        = (Raised "InvalidId", db))
  /\ list_wallpapers_subscribed E (Some ("Bearer " +:+ token)) now db = false.
Proof.
  intros Hne Hdec Hsub Hoid.
  assert (Hu : get_current_user E (Some ("Bearer " +:+ token)) now db
               = Raised "InvalidId").
  { unfold get_current_user. rewrite (bearer_header E token now payload Hne Hdec).
    unfold get. rewrite Hsub. cbv [from_option id].
    rewrite bool_decide_eq_false_2 by done. cbn [mbind result_bind].
    unfold get_current_user_record, ObjectId_new. by rewrite Hoid. }
  split; [exact Hu|]. split.
  - intros A handler. unfold depends. by rewrite Hu.
  - unfold list_wallpapers_subscribed. simpl.
    change ("" +:+ token) with token. rewrite Hdec.
    unfold get. rewrite Hsub. cbv [from_option id].
    destruct (truthy (VStr sub)); [|reflexivity].
    unfold ObjectId_new. by rewrite Hoid.
Qed.

Lemma subject_not_an_object_id_witness :
  get_current_user Sim.env (Some ("Bearer " +:+ "+1.abc")) 0 demo_db
    = Raised "InvalidId"
  /\ (forall (A : Type) (handler : gmap string value -> DB -> result A * DB),
        depends Sim.env (Some ("Bearer " +:+ "+1.abc")) 0 demo_db handler
        = (Raised "InvalidId", demo_db))
  /\ list_wallpapers_subscribed Sim.env (Some ("Bearer " +:+ "+1.abc")) 0 demo_db
     = false.
Proof.
  apply (subject_not_an_object_id Sim.env "+1.abc" 0 demo_db
           (<["exp" := VInt 3]> {[ "sub" := VStr "abc" ]}) "abc");
    by_evaluation.
Defined.

(** A subject or a wallpaper id of 24 characters with white space among
    the hexadecimal digits is no [InvalidId]: [ObjectId] makes an id of
    fewer than twelve bytes of it, which no stored document has.  The
    dependency answers 401 as for a user who is gone, the download 404. *)
Lemma find_one_short_id (o : ObjectId) (c : list stored) :
  object_ids c -> (2 ^ 96 <= o)%N -> find_one [("_id", VObjectId o)] c = None.
Proof.
  intros Hids Ho. apply fresh_find_one. unfold fresh.
  induction Hids as [|d c Hd _ IH]; [reflexivity|].
  cbn [existsb]. rewrite IH, orb_false_r. apply N.eqb_neq. lia.
Qed.

Lemma subject_with_spaces (E : Env) (token : string) (now : Z) (db : DB)
    (payload : gmap string value) (sub : string) (o : ObjectId) :
  token <> "" ->
  jwt_decode E token (SECRET_KEY E) [ALGORITHM] now = Decoded payload ->
  payload !! "sub" = Some (VStr sub) ->
  ObjectId_of_str sub = Some o ->
  spaces sub <> 0%nat ->
  object_ids (user db) ->
  get_current_user E (Some ("Bearer " +:+ token)) now db
  = HTTPException 401 "User not found".
Proof.
  intros Hne Hdec Hsub Hoid Hsp Hids.
  unfold get_current_user. rewrite (bearer_header E token now payload Hne Hdec).
  unfold get. rewrite Hsub. cbv [from_option id].
  rewrite bool_decide_eq_false_2 by done. cbn [mbind result_bind].
  unfold get_current_user_record, ObjectId_new. rewrite Hoid.
  cbn [mbind result_bind].
  by rewrite (find_one_short_id o (user db) Hids
                (ObjectId_of_str_spaces sub o Hoid Hsp)).
Qed.

Lemma download_id_with_spaces (wallpaper_id : string) (o : ObjectId)
    (current_user : gmap string value) (db : DB) :
  ObjectId_of_str wallpaper_id = Some o ->
  spaces wallpaper_id <> 0%nat ->
  object_ids (wallpaper db) ->
  download_wallpaper wallpaper_id current_user db
  = (HTTPException 404 "Wallpaper not found", db).
Proof.
  intros Hoid Hsp Hids. unfold download_wallpaper, ObjectId_new. rewrite Hoid.
  by rewrite (find_one_short_id o (wallpaper db) Hids
                (ObjectId_of_str_spaces wallpaper_id o Hoid Hsp)).
Qed.

Example ids_with_spaces :
  get_current_user Sim.env
    (Some ("Bearer " +:+ "+1.00 00 00 00 00 00 00 01 ")) 0 demo_db
    = HTTPException 401 "User not found"
  /\ download_wallpaper "00 00 00 00 00 00 00 0a " subscriber demo_db
     = (HTTPException 404 "Wallpaper not found", demo_db).
Proof. split; by_evaluation. Qed.

Lemma partition_scheme (scheme rest : string) :
  no_space scheme ->
  partition " " (scheme +:+ " " +:+ rest) = (scheme, " ", rest).
Proof.
  induction scheme as [|c scheme IH]; intros Hns.
  - reflexivity.
  - change (String c scheme +:+ " " +:+ rest)
      with (String c (scheme +:+ " " +:+ rest)).
    cbn [partition].
    destruct (Ascii.eqb_spec c " ") as [->|_].
    + exfalso. apply (Hns " "%char); [by left | reflexivity].
    + rewrite IH; [reflexivity|].
      intros c' Hin. apply Hns. by right.
Qed.

Lemma append_space_nonempty (scheme rest : string) :
  String.eqb (scheme +:+ " " +:+ rest) "" = false.
Proof. by destruct scheme. Qed.

(** X12.  Of the [Authorization] header, [get_current_user] reads the
    scheme without regard to letter case and refuses every other scheme
    with 401, while the listing does not look at the scheme at all: under
    any scheme it treats the token as under [Bearer]. *)
Theorem authorization_scheme (E : Env) (scheme token : string) (now : Z)
    (db : DB) :
  no_space scheme ->
  (lower scheme = "bearer" ->
     get_current_user E (Some (scheme +:+ " " +:+ token)) now db
     = get_current_user E (Some ("Bearer " +:+ token)) now db)
  /\ (lower scheme <> "bearer" ->
      get_current_user E (Some (scheme +:+ " " +:+ token)) now db
      = HTTPException 401 "Invalid auth header")
  /\ list_wallpapers_subscribed E (Some (scheme +:+ " " +:+ token)) now db
     = list_wallpapers_subscribed E (Some ("Bearer " +:+ token)) now db.
Proof.
  intros Hns.
  assert (Hbearer : partition " " ("Bearer " +:+ token) = ("Bearer", " ", token))
    by reflexivity.
  split; [|split].
  - intros Hlow. unfold get_current_user, get_current_user_sub.
    cbn [truthy_opt]. rewrite append_space_nonempty.
    change (String.eqb ("Bearer " +:+ token) "") with false.
    cbv [from_option id]. rewrite (partition_scheme _ _ Hns), Hbearer, Hlow.
    reflexivity.
  - intros Hlow. unfold get_current_user, get_current_user_sub.
    cbn [truthy_opt]. rewrite append_space_nonempty.
    cbv [from_option id]. rewrite (partition_scheme _ _ Hns).
    destruct (String.eqb_spec (lower scheme) "bearer"); [contradiction|].
    reflexivity.
  - unfold list_wallpapers_subscribed.
    cbn [truthy_opt]. rewrite append_space_nonempty.
    change (String.eqb ("Bearer " +:+ token) "") with false.
    cbv [from_option id]. by rewrite (partition_scheme _ _ Hns), Hbearer.
Qed.

Lemma authorization_scheme_witness :
  get_current_user Sim.env (Some ("BEARER" +:+ " " +:+ alice_token 0)) 0
    db_registered
  = get_current_user Sim.env (Some ("Bearer " +:+ alice_token 0)) 0 db_registered
  /\ get_current_user Sim.env (Some ("Basic" +:+ " " +:+ alice_token 0)) 0
       db_registered
     = HTTPException 401 "Invalid auth header"
  /\ list_wallpapers_subscribed Sim.env
       (Some ("Basic" +:+ " " +:+ alice_token later)) later demo_db
     = list_wallpapers_subscribed Sim.env
         (Some ("Bearer " +:+ alice_token later)) later demo_db.
Proof.
  assert (Hns : forall s, forallb (fun c => negb (Ascii.eqb c " "))
                            (list_ascii_of_string s) = true -> no_space s).
  { intros s Hall c Hin Hc. rewrite forallb_forall in Hall.
    specialize (Hall c Hin). subst c. discriminate. }
  split; [|split].
  - apply (proj1 (authorization_scheme Sim.env "BEARER" (alice_token 0) 0
                    db_registered (Hns "BEARER" eq_refl))).
    reflexivity.
  - apply (proj1 (proj2 (authorization_scheme Sim.env "Basic" (alice_token 0) 0
                           db_registered (Hns "Basic" eq_refl)))).
    discriminate.
  - apply (proj2 (proj2 (authorization_scheme Sim.env "Basic"
                           (alice_token later) later demo_db
                           (Hns "Basic" eq_refl)))).
Defined.

(** ** Subscriptions compose *)

Lemma subscription_fields_over (plan1 plan2 : string) (now1 now2 : Z)
    (m : gmap string value) :
  subscription_fields plan2 now2 ∪ (subscription_fields plan1 now1 ∪ m)
  = subscription_fields plan2 now2 ∪ m.
Proof.
  apply map_eq. intros k. rewrite !lookup_union. unfold subscription_fields.
  destruct (m !! k);
    (destruct (decide (k = "plan")) as [->|?];
       [by rewrite !lookup_insert_eq|]);
    (destruct (decide (k = "subscribed")) as [->|?];
       [by rewrite !(lookup_insert_ne _ "plan"), !lookup_insert_eq|]);
    (destruct (decide (k = "plan_ends_at")) as [->|?];
       [by rewrite !(lookup_insert_ne _ "plan"),
             !(lookup_insert_ne _ "subscribed"), !lookup_insert_eq|]);
    (destruct (decide (k = "updated_at")) as [->|?];
       [by rewrite !(lookup_insert_ne _ "plan"),
             !(lookup_insert_ne _ "subscribed"),
             !(lookup_insert_ne _ "plan_ends_at"), !lookup_insert_eq|]);
    by rewrite !lookup_insert_ne, !lookup_empty.
Qed.

Lemma update_one_set_over (o : ObjectId) (plan1 plan2 : string)
    (now1 now2 : Z) (c : list stored) :
  update_one_set [("_id", VObjectId o)] (subscription_fields plan2 now2)
    (update_one_set [("_id", VObjectId o)] (subscription_fields plan1 now1) c)
  = update_one_set [("_id", VObjectId o)] (subscription_fields plan2 now2) c.
Proof.
  induction c as [|d c IH]; [reflexivity|]. cbn [update_one_set].
  destruct (matches [("_id", VObjectId o)] d) eqn:Hm.
  - cbn [update_one_set].
    assert (matches [("_id", VObjectId o)]
              (fst d, subscription_fields plan1 now1 ∪ snd d) = true) as ->.
    { apply matches_id. by apply matches_id in Hm. }
    cbn [fst snd]. by rewrite subscription_fields_over.
  - cbn [update_one_set]. rewrite Hm. by rewrite IH.
Qed.

(** X13.  Of two subscriptions by the same user the last one wins: asking
    for a valid plan after any earlier subscription request gives the same
    answer and leaves the same database as asking for it alone.  In
    particular a subscription repeated at the same instant changes
    nothing. *)
Theorem subscribe_last_wins (body1 body2 : SubscriptionRequest.t)
    (current_user : gmap string value) (now1 now2 : Z) (db : DB) :
  In (SubscriptionRequest.plan body2) ["free"; "pro"; "elite"] ->
  subscribe body2 current_user now2 (snd (subscribe body1 current_user now1 db))
  = subscribe body2 current_user now2 db.
Proof.
  intros Hplan2. apply existsb_eqb_In in Hplan2.
  assert (Hdb1 :
    snd (subscribe body1 current_user now1 db) = db
    \/ exists oid,
         subscript current_user "id" ≫= (fun id => ObjectId_new id) = Ok oid
         /\ snd (subscribe body1 current_user now1 db)
            = set_user db
                (update_one_set [("_id", VObjectId oid)]
                   (subscription_fields (SubscriptionRequest.plan body1) now1)
                   (user db))).
  { unfold subscribe. destruct (negb (existsb _ _)); [by left|].
    destruct (subscript current_user "id" ≫= _) as [oid| |];
      [|by left|by left].
    right. by exists oid. }
  destruct Hdb1 as [-> | (oid & Hoid & ->)]; [reflexivity|].
  unfold subscribe. rewrite Hplan2, Hoid. cbn [negb set_user user wallpaper].
  f_equal. f_equal.
  apply (update_one_set_over oid (SubscriptionRequest.plan body1)
           (SubscriptionRequest.plan body2) now1 now2).
Qed.

Lemma subscribe_last_wins_witness :
  subscribe (SubscriptionRequest.mk "free") alice_me later
    (snd (subscribe (SubscriptionRequest.mk "pro") alice_me 0 db_registered))
  = subscribe (SubscriptionRequest.mk "free") alice_me later db_registered.
Proof.
  apply (subscribe_last_wins (SubscriptionRequest.mk "pro")
           (SubscriptionRequest.mk "free") alice_me 0 later db_registered).
  simpl. auto.
Defined.

(** ** The catalogue *)

Lemma find_one_app_Some (q : list (string * value)) (c l : list stored) :
  find_one q c <> None -> find_one q (c ++ l) <> None.
Proof.
  induction c as [|d c IH]; cbn [find_one app]; [done|].
  by destruct (matches q d).
Qed.

(** After the seeding loop has run to its end every title it was given is
    in the catalogue. *)
Lemma seed_sample_loop_present (todo : list (gmap string value)) (i : nat)
    (now : Z) (ids : nat -> ObjectId) (db db' : DB) :
  seed_sample_loop todo i now ids db = (Ok tt, db') ->
  Forall (fun s => exists title,
            s !! "title" = Some title
            /\ find_one [("title", title)] (wallpaper db') <> None) todo.
Proof.
  revert i db. induction todo as [|s rest IH]; intros i db;
    cbn [seed_sample_loop]; [constructor|].
  unfold subscript. destruct (s !! "title") as [title|] eqn:Htitle;
    [|discriminate].
  destruct (find_one [("title", title)] (wallpaper db)) eqn:Hfind.
  - intros Hloop. constructor; [|by apply (IH _ _ Hloop)].
    exists title. split; [done|].
    destruct (seed_sample_loop_appends rest (S i) now ids db) as (added & Hadd).
    rewrite Hloop in Hadd. cbn [snd] in Hadd. rewrite Hadd.
    apply find_one_app_Some. by rewrite Hfind.
  - destruct (insert_one _ _ _) as [c|] eqn:Hins; [|discriminate].
    intros Hloop. constructor; [|by apply (IH _ _ Hloop)].
    exists title. split; [done|].
    destruct (seed_sample_loop_appends rest (S i) now ids (set_wallpaper db c))
      as (added & Hadd).
    rewrite Hloop in Hadd. cbn [snd set_wallpaper wallpaper] in Hadd.
    rewrite Hadd. apply find_one_app_Some.
    apply insert_one_Some in Hins. subst c. rewrite find_one_app, Hfind.
    match goal with
    | |- (if ?b then _ else _) <> _ => assert (b = true) as ->; [|done]
    end.
    unfold matches. cbn [forallb fst snd]. rewrite andb_true_r.
    apply bool_decide_eq_true.
    rewrite to_py_other by done. cbn [snd].
    by rewrite !lookup_insert_ne.
Qed.

(** When every title is in the catalogue the seeding loop inserts
    nothing. *)
Lemma seed_sample_loop_noop (todo : list (gmap string value)) (i : nat)
    (now : Z) (ids : nat -> ObjectId) (db : DB) :
  Forall (fun s => exists title,
            s !! "title" = Some title
            /\ find_one [("title", title)] (wallpaper db) <> None) todo ->
  seed_sample_loop todo i now ids db = (Ok tt, db).
Proof.
  intros Hall. revert i.
  induction Hall as [|s rest (title & Htitle & Hfind) _ IH]; intros i;
    cbn [seed_sample_loop]; [reflexivity|].
  unfold subscript. rewrite Htitle.
  destruct (find_one _ _); [apply IH|done].
Qed.

(** X14.  Seeding is idempotent by title: once [seed_sample] has succeeded,
    seeding again, by any administrator, at any time and whatever ids the
    driver holds ready, succeeds and leaves the database as it is. *)
Theorem seed_sample_twice (u u' : gmap string value) (now now' : Z)
    (ids ids' : nat -> ObjectId) (db db1 : DB) (r : gmap string value) :
  seed_sample u now ids db = (Ok r, db1) ->
  get u' "role" = VStr "admin" ->
  seed_sample u' now' ids' db1 = (Ok {[ "status" := VStr "ok" ]}, db1).
Proof.
  unfold seed_sample. destruct (negb _); [discriminate|].
  destruct (seed_sample_loop samples 0 now ids db) as [[[]| |] db'] eqn:Hloop;
    try discriminate.
  intros [= <- <-] Hrole. rewrite bool_decide_eq_true_2 by assumption.
  cbn [negb].
  by rewrite (seed_sample_loop_noop samples 0 now' ids' db'
                (seed_sample_loop_present samples 0 now ids db db' Hloop)).
Qed.

Lemma seed_sample_twice_witness :
  seed_sample administrator (later + 5) (fun i => demo_ids (10 + i))
    (snd (seed_sample administrator later demo_ids demo_db))
  = (Ok {[ "status" := VStr "ok" ]},
     snd (seed_sample administrator later demo_ids demo_db)).
Proof.
  apply (seed_sample_twice administrator administrator later (later + 5)
           demo_ids (fun i => demo_ids (10 + i)) demo_db
           (snd (seed_sample administrator later demo_ids demo_db))
           {[ "status" := VStr "ok" ]}); by_evaluation.
Defined.

(** X15.  A wallpaper an administrator creates can be downloaded at once
    under the id of the answer: the answer carries [id], the text of the new
    object id, beside the [_id] the driver added and a counter at 0; a
    subscriber who then downloads that id gets the [image_url] of the body,
    and the counter of the new wallpaper goes to 1. *)
Theorem create_then_download (E : Env) (body : WallpaperCreate.t)
    (admin current_user : gmap string value) (now : Z) (new_id : ObjectId)
    (db db1 : DB) (r : gmap string value) :
  (new_id < 2 ^ 96)%N ->
  admin_create_wallpaper E body admin now new_id db = (Ok r, db1) ->
  truthy (get current_user "subscribed") = true ->
  r !! "id" = Some (VStr (ObjectId_str new_id))
  /\ r !! "_id" = Some (VObjectId new_id)
  /\ r !! "downloads" = Some (VInt 0)
  /\ exists db2,
       download_wallpaper (ObjectId_str new_id) current_user db1
       = (Ok {[ "url" := VStr (WallpaperCreate.image_url body) ]}, db2)
       /\ downloads <$> find_one [("_id", VObjectId new_id)] (wallpaper db2)
          = Some (VInt 1).
Proof.
  intros Hid. unfold admin_create_wallpaper.
  destruct (negb _); [discriminate|].
  destruct (insert_one _ _ _) as [c|] eqn:Hins; [|discriminate].
  intros [= <- <-] Hsub.
  split; [unfold WallpaperCreate.model_dump; by simplify_map_eq|].
  split; [apply lookup_union_Some_l; by simplify_map_eq|].
  split; [apply lookup_union_Some_l; by simplify_map_eq|].
  pose proof (find_one_insert_one _ _ _ _ Hins) as Hfind.
  pose proof (download_wallpaper_spec (ObjectId_str new_id) new_id current_user
                (set_wallpaper db c) (ObjectId_of_str_str new_id Hid)) as Hspec.
  cbn [set_wallpaper wallpaper] in Hspec. rewrite Hfind, Hsub in Hspec.
  destruct (Hspec 0) as (db2 & Hdown & _ & Hfind2).
  { unfold downloads, get_default. rewrite to_py_other by done. cbn [snd].
    by simplify_map_eq. }
  exists db2. split.
  - rewrite Hdown. reflexivity.
  - rewrite Hfind2. reflexivity.
Qed.

Lemma create_then_download_witness :
  exists r db1,
    admin_create_wallpaper Sim.env demo_wallpaper administrator later 99%N
      demo_db = (Ok r, db1)
    /\ r !! "id" = Some (VStr (ObjectId_str 99%N))
    /\ exists db2,
         download_wallpaper (ObjectId_str 99%N) subscriber db1
         = (Ok {[ "url" := VStr "https://img.example/mist" ]}, db2)
         /\ downloads <$> find_one [("_id", VObjectId 99%N)] (wallpaper db2)
            = Some (VInt 1).
Proof.
  exists (default ∅ (match fst (admin_create_wallpaper Sim.env demo_wallpaper
                                  administrator later 99%N demo_db) with
                     | Ok r => Some r
                     | _ => None
                     end)),
         (snd (admin_create_wallpaper Sim.env demo_wallpaper administrator
                 later 99%N demo_db)).
  split; [by_evaluation|].
  destruct (create_then_download Sim.env demo_wallpaper administrator
              subscriber later 99%N demo_db
              (snd (admin_create_wallpaper Sim.env demo_wallpaper administrator
                      later 99%N demo_db))
              (default ∅ (match fst (admin_create_wallpaper Sim.env
                                       demo_wallpaper administrator later 99%N
                                       demo_db) with
                          | Ok r => Some r
                          | _ => None
                          end)))
    as (Hr & _ & _ & Hdown).
  - reflexivity.
  - by_evaluation.
  - by_evaluation.
  - split; [exact Hr | exact Hdown].
Defined.

(** ** From registration to the listing *)

(** X16.  End to end: a user registers, subscribes with the token of the
    registration, and lists the wallpapers with the same token, all within
    the seven days of the token.  The listing then answers
    [subscribed = (plan != "free")], and its items are watermarked exactly
    when the plan is [free]. *)
Theorem register_subscribe_list (E : Env) (reg : RegisterRequest.t)
    (body : SubscriptionRequest.t) (now0 now1 now2 : Z) (new_id : ObjectId)
    (db db1 : DB) (r : gmap string value) (category : option string)
    (limit : Z) :
  jose_roundtrip E ->
  (new_id < 2 ^ 96)%N ->
  register E reg now0 new_id db = (Ok r, db1) ->
  now0 <= now1 <= now0 + 7 * day ->
  now0 <= now2 <= now0 + 7 * day ->
  In (SubscriptionRequest.plan body) ["free"; "pro"; "elite"] ->
  let authorization :=
    Some ("Bearer " +:+
          create_access_token E {[ "sub" := VStr (ObjectId_str new_id) ]}
            None now0) in
  let db2 := snd (serve E (PostSubscribe authorization body) now1 db1) in
  r = {[ "access_token" :=
           VStr (create_access_token E
                   {[ "sub" := VStr (ObjectId_str new_id) ]} None now0) ]}
  /\ exists l,
       list_wallpapers E category limit authorization now2 db2 = Ok l
       /\ subscribed l = negb (String.eqb (SubscriptionRequest.plan body) "free")
       /\ Forall (fun it =>
                    it !! "watermarked"
                    = Some (VBool (String.eqb (SubscriptionRequest.plan body)
                                     "free")))
            (items l).
Proof.
  intros Hjose Hid Hreg Hnow1 Hnow2 Hplan authorization db2.
  destruct (register_Ok E reg now0 new_id db r db1 Hreg)
    as (Hnone & Hfresh & Hr & ->).
  split; [exact Hr|].
  set (doc := registration_doc E reg now0) in *.
  assert (Hfind1 : find_one [("_id", VObjectId new_id)]
                     (user (set_user db (user db ++ [(new_id, doc)])))
                   = Some (to_py (new_id, doc))).
  { cbn [set_user user]. rewrite find_one_app.
    apply fresh_find_one in Hfresh. rewrite Hfresh.
    assert (matches [("_id", VObjectId new_id)] (new_id, doc) = true) as ->
      by by apply matches_id.
    reflexivity. }
  destruct (issued_token_authenticates E new_id _ now0 now1 _
              Hjose Hid Hnow1 Hfind1) as [Hauth _].
  fold authorization in Hauth.
  assert (Hdb2 : user db2
                 = update_one_set [("_id", VObjectId new_id)]
                     (subscription_fields (SubscriptionRequest.plan body) now1)
                     (user (set_user db (user db ++ [(new_id, doc)])))).
  { subst db2. cbn [serve json snd]. unfold depends. rewrite Hauth.
    unfold subscribe. apply existsb_eqb_In in Hplan. rewrite Hplan.
    cbn [negb]. unfold subscript.
    rewrite lookup_delete_ne, lookup_insert_eq by done.
    cbn [mbind result_bind]. unfold ObjectId_new.
    rewrite (ObjectId_of_str_str new_id Hid). reflexivity. }
  destruct (find_one_update_one_set_id new_id
              (subscription_fields (SubscriptionRequest.plan body) now1)
              _ _ Hfind1) as (d & _ & _ & _ & Hfind2).
  rewrite <- Hdb2 in Hfind2.
  destruct (issued_token_authenticates E new_id _ now0 now2 db2
              Hjose Hid Hnow2 Hfind2) as [_ Hlist].
  fold authorization in Hlist.
  destruct (list_wallpapers_ok E category limit authorization now2 db2)
    as (l & Hl & Hflag & Hwm).
  assert (Hsub : subscribed l
                 = negb (String.eqb (SubscriptionRequest.plan body) "free")).
  { rewrite Hflag, Hlist. unfold get. rewrite to_py_other by done.
    cbn [snd].
    rewrite (lookup_union_Some_l _ _ _
               (VBool (negb (String.eqb (SubscriptionRequest.plan body) "free")))).
    - reflexivity.
    - unfold subscription_fields. by simplify_map_eq. }
  exists l. split; [exact Hl|]. split; [exact Hsub|].
  rewrite Hsub, negb_involutive in Hwm. exact Hwm.
Qed.

Lemma register_subscribe_list_witness :
  exists l,
    list_wallpapers Sim.env None 50 (bearer (alice_token 0)) (2 * day)
      (snd (serve Sim.env
              (PostSubscribe (bearer (alice_token 0))
                 (SubscriptionRequest.mk "elite"))
              day db_registered))
    = Ok l
    /\ subscribed l = negb (String.eqb "elite" "free")
    /\ Forall (fun it =>
                 it !! "watermarked" = Some (VBool (String.eqb "elite" "free")))
         (items l).
Proof.
  destruct (register_subscribe_list Sim.env alice
              (SubscriptionRequest.mk "elite") 0 day (2 * day) 1%N empty_db
              db_registered {[ "access_token" := VStr (alice_token 0) ]}
              None 50 sim_roundtrip) as [_ Hlist].
  - reflexivity.
  - by_evaluation.
  - unfold day. lia.
  - unfold day. lia.
  - simpl. auto.
  - exact Hlist.
Defined.

(** ** Categories *)

Lemma get_categories_ids_ok (E : Env) (c : list stored) :
  get_categories_ids E (to_py <$> c) = Ok (category_out <$> c).
Proof.
  induction c as [|d c IH]; [reflexivity|].
  rewrite !fmap_cons. cbn [get_categories_ids].
  unfold get_categories_id at 1, subscript. rewrite to_py_id.
  cbn [mbind result_bind str]. rewrite IH. reflexivity.
Qed.

Lemma find_all (c : list stored) : find [] c = c.
Proof.
  unfold find. induction c as [|d c IH]; [reflexivity|].
  cbn [List.filter matches forallb]. by rewrite IH.
Qed.

Lemma get_categories_nonempty (E : Env) (new_id : nat -> ObjectId)
    (c : list stored) :
  c <> [] -> get_categories E new_id c = (Ok (category_out <$> c), c).
Proof.
  intros Hc. unfold get_categories. destruct c as [|d c]; [done|].
  cbn [length Nat.eqb]. by rewrite find_all, get_categories_ids_ok.
Qed.

(** X17.  On a collection that is not empty [get_categories] writes
    nothing and answers every stored category, in order, with the key [_id]
    replaced by the key [id], the text of the object id, and the other
    fields as stored. *)
Theorem get_categories_reads (E : Env) (new_id : nat -> ObjectId)
    (c : list stored) :
  c <> [] ->
  get_categories E new_id c = (Ok (category_out <$> c), c)
  /\ Forall (fun d =>
               category_out d !! "id" = Some (VStr (ObjectId_str (fst d)))
               /\ category_out d !! "_id" = None
               /\ forall k, k <> "id" -> k <> "_id" ->
                    category_out d !! k = snd d !! k) c.
Proof.
  intros Hc. split; [by apply get_categories_nonempty|].
  apply Forall_forall. intros d _. unfold category_out.
  split; [by rewrite lookup_insert_eq|].
  split; [by rewrite lookup_insert_ne, lookup_delete_eq|].
  intros k Hid H_id.
  rewrite lookup_insert_ne, lookup_delete_ne by done. by apply to_py_other.
Qed.

Lemma get_categories_reads_witness :
  get_categories Sim.env demo_ids (seeded_categories demo_ids)
  = (Ok (category_out <$> seeded_categories demo_ids),
     seeded_categories demo_ids)
  /\ Forall (fun d =>
               category_out d !! "id" = Some (VStr (ObjectId_str (fst d)))
               /\ category_out d !! "_id" = None
               /\ forall k, k <> "id" -> k <> "_id" ->
                    category_out d !! k = snd d !! k)
       (seeded_categories demo_ids).
Proof.
  apply (get_categories_reads Sim.env demo_ids (seeded_categories demo_ids)).
  discriminate.
Defined.

Lemma update_one_upsert_new (q : list (string * value))
    (fields : gmap string value) (o : ObjectId) (c : list stored) :
  existsb (matches q) c = false ->
  fresh o c ->
  update_one_upsert q fields o c = Some (c ++ [(o, fields ∪ list_to_map q)]).
Proof.
  intros Hq Hfresh. unfold update_one_upsert, insert_one.
  rewrite Hq. unfold fresh in Hfresh. by rewrite Hfresh.
Qed.

Lemma fresh_cons (o : ObjectId) (d : stored) (c : list stored) :
  fst d <> o -> fresh o c -> fresh o (d :: c).
Proof.
  unfold fresh. intros Hne Hc. cbn [existsb].
  apply orb_false_intro; [by apply N.eqb_neq | exact Hc].
Qed.

(** X18.  On an empty collection [get_categories] inserts the four default
    categories, anime, nature, scenery and live, in that order, under the
    ids the driver generates (when these differ), and answers them; called
    again it answers the same and writes nothing. *)
Theorem get_categories_seeds (E : Env) (new_id new_id' : nat -> ObjectId) :
  (forall j k : nat, j <> k -> new_id j <> new_id k) ->
  get_categories E new_id []
  = (Ok (category_out <$> seeded_categories new_id), seeded_categories new_id)
  /\ get_categories E new_id' (seeded_categories new_id)
     = (Ok (category_out <$> seeded_categories new_id),
        seeded_categories new_id)
  /\ (fun d => snd d !! "slug") <$> seeded_categories new_id
     = [Some (VStr "anime"); Some (VStr "nature"); Some (VStr "scenery");
        Some (VStr "live")].
Proof.
  intros Hinj. split; [|split].
  - unfold get_categories. cbn [length Nat.eqb].
    assert (Hseed : get_categories_seed DEFAULT_CATEGORIES 0 new_id []
                    = (Ok tt, seeded_categories new_id)).
    { unfold DEFAULT_CATEGORIES. cbn [get_categories_seed].
      change (subscript (category "anime" _ _) "slug") with (Ok (VStr "anime")).
      cbv iota.
      rewrite (update_one_upsert_new _ _ (new_id 0%nat) []) by reflexivity.
      cbn [get_categories_seed app].
      change (subscript (category "nature" _ _) "slug") with (Ok (VStr "nature")).
      cbv iota.
      rewrite update_one_upsert_new;
        [|reflexivity|apply fresh_cons; [apply Hinj; lia|reflexivity]].
      cbn [get_categories_seed app].
      change (subscript (category "scenery" _ _) "slug")
        with (Ok (VStr "scenery")).
      cbv iota.
      rewrite update_one_upsert_new;
        [|reflexivity
         |repeat (apply fresh_cons; [apply Hinj; lia|]); reflexivity].
      cbn [get_categories_seed app].
      change (subscript (category "live" _ _) "slug") with (Ok (VStr "live")).
      cbv iota.
      rewrite update_one_upsert_new;
        [|reflexivity
         |repeat (apply fresh_cons; [apply Hinj; lia|]); reflexivity].
      cbn [get_categories_seed app]. reflexivity. }
    rewrite Hseed. by rewrite find_all, get_categories_ids_ok.
  - apply get_categories_nonempty. discriminate.
  - reflexivity.
Qed.

Lemma get_categories_seeds_witness :
  get_categories Sim.env demo_ids []
  = (Ok (category_out <$> seeded_categories demo_ids),
     seeded_categories demo_ids)
  /\ get_categories Sim.env (fun _ => 0%N) (seeded_categories demo_ids)
     = (Ok (category_out <$> seeded_categories demo_ids),
        seeded_categories demo_ids)
  /\ (fun d => snd d !! "slug") <$> seeded_categories demo_ids
     = [Some (VStr "anime"); Some (VStr "nature"); Some (VStr "scenery");
        Some (VStr "live")].
Proof.
  apply (get_categories_seeds Sim.env demo_ids (fun _ => 0%N)).
  intros j k Hjk. unfold demo_ids. lia.
Defined.

(** ** The category filter *)

Lemma list_wallpapers_items_category (E : Env) (b : bool) (v : value)
    (cursor : list stored) (its : list (gmap string value)) :
  Forall (fun w => to_py w !! "category" = Some v) cursor ->
  list_wallpapers_items E b cursor = Ok its ->
  Forall (fun it => it !! "category" = Some v) its.
Proof.
  intros Hall. revert its.
  induction Hall as [|w rest Hw _ IH]; intros its; cbn [list_wallpapers_items].
  - intros [= <-]. constructor.
  - unfold list_wallpapers_item at 1, subscript. rewrite to_py_id.
    cbn [mbind result_bind].
    destruct (list_wallpapers_items E b rest) as [its'| |]; try discriminate.
    cbn [mbind result_bind]. intros [= <-]. constructor; [|by apply IH].
    rewrite lookup_insert_ne, lookup_insert_ne, lookup_insert_eq by done.
    unfold get. by rewrite Hw.
Qed.

(** X19.  With a category that is not empty the listing shows wallpapers of
    that category only: over a catalogue whose categories are single
    values, and when the cursor hands out documents of its result set only,
    every item carries the category asked for.  An empty category is no
    filter at all. *)
Theorem listing_category (E : Env) (category : string) (limit : Z)
    (authorization : option string) (now : Z) (db : DB) :
  cursor_selects E ->
  scalar_categories (wallpaper db) ->
  category <> "" ->
  (exists l,
     list_wallpapers E (Some category) limit authorization now db = Ok l
     /\ Forall (fun it => it !! "category" = Some (VStr category)) (items l))
  /\ list_wallpapers E (Some "") limit authorization now db
     = list_wallpapers E None limit authorization now db.
Proof.
  intros Hcursor _ Hcat. split; [|reflexivity].
  destruct (list_wallpapers_ok E (Some category) limit authorization now db)
    as (l & Hl & _ & _).
  exists l. split; [exact Hl|].
  unfold list_wallpapers in Hl. cbn [truthy_opt] in Hl.
  destruct (String.eqb_spec category "") as [|_]; [contradiction|].
  cbn [negb] in Hl. cbv [from_option id] in Hl.
  set (cursor := cursor_sort_limit E _ _ _ _) in Hl.
  destruct (list_wallpapers_items E _ cursor) as [its| |] eqn:Hits;
    try discriminate.
  cbn [mbind result_bind] in Hl. injection Hl as <-. cbn [items].
  apply (list_wallpapers_items_category E
           (list_wallpapers_subscribed E authorization now db)
           (VStr category) cursor its); [|exact Hits].
  apply List.Forall_forall. intros w Hw. apply Hcursor in Hw.
  unfold find in Hw. apply List.filter_In in Hw as [_ Hm].
  unfold matches in Hm. cbn [forallb fst snd] in Hm.
  rewrite andb_true_r in Hm. by apply bool_decide_eq_true in Hm.
Qed.

Lemma In_insert_desc (x d : stored) (l : list stored) :
  In x (Sim.insert_desc d l) -> x = d \/ In x l.
Proof.
  induction l as [|y l IH]; cbn [Sim.insert_desc].
  - intros [<-|[]]. by left.
  - destruct (Z.ltb _ _).
    + intros [<-|Hin]; [by left | by right].
    + intros [<-|Hin]; [right; by left|].
      destruct (IH Hin) as [->|Hl]; [by left | right; by right].
Qed.

Lemma In_firstn (n : nat) (l : list stored) (x : stored) :
  In x (firstn n l) -> In x l.
Proof.
  revert l. induction n as [|n IH]; intros [|y l]; cbn [firstn]; try done.
  intros [<-|Hin]; [by left | right; by apply IH].
Qed.

Lemma sim_selects : cursor_selects Sim.env.
Proof.
  intros key direction limit l d. simpl. unfold Sim.sort_limit.
  assert (Hsorted : forall x, In x (fold_right Sim.insert_desc [] l) -> In x l).
  { induction l as [|y l IH]; cbn [fold_right]; [done|].
    intros x Hx. apply In_insert_desc in Hx as [->|Hx]; [by left|].
    right. by apply IH. }
  destruct (Z.eqb limit 0); [apply Hsorted|].
  intros Hin. apply Hsorted. by apply (In_firstn _ _ _ Hin).
Qed.

Lemma listing_category_witness :
  (exists l,
     list_wallpapers Sim.env (Some "scenery") 50 None later demo_db = Ok l
     /\ Forall (fun it => it !! "category" = Some (VStr "scenery")) (items l))
  /\ list_wallpapers Sim.env (Some "") 50 None later demo_db
     = list_wallpapers Sim.env None 50 None later demo_db.
Proof.
  apply (listing_category Sim.env "scenery" 50 None later demo_db sim_selects).
  - change (wallpaper demo_db) with [neon_wave].
    constructor; [|constructor]. intros l.
    assert (snd neon_wave !! "category" = Some (VStr "scenery")) as ->
      by by_evaluation.
    discriminate.
  - discriminate.
Defined.

(** ** A session outlives the other requests *)

Lemma find_one_id_In (o : ObjectId) (c : list stored) :
  find_one [("_id", VObjectId o)] c <> None <-> In o (fst <$> c).
Proof.
  induction c as [|d c IH]; cbn [find_one]; [by split|].
  rewrite fmap_cons. cbn [In].
  destruct (matches [("_id", VObjectId o)] d) eqn:Hm.
  - apply matches_id in Hm. split; [by left | done].
  - rewrite IH. split; [by right|]. intros [Heq|Hin]; [|done].
    apply matches_id in Heq. congruence.
Qed.

Lemma serve_keeps_ids (E : Env) (req : request) (now : Z) (db : DB)
    (o : ObjectId) :
  In o (fst <$> user db) -> In o (fst <$> user (snd (serve E req now db))).
Proof.
  destruct (serve_users E req now db)
    as [-> | [(body & new_id & _ & _ & _ & ->)
             | (auth & body & l1 & d & l2 & _ & -> & ->)]].
  - done.
  - rewrite fmap_app. intros Hin. apply in_or_app. by left.
  - by rewrite !fmap_app, !fmap_cons.
Qed.

(** X20.  No request locks a user out: whatever requests are served after
    a token was issued for a stored user, [get_current_user] accepts the
    token until it expires and returns a record with the id of that user. *)
Theorem token_survives_requests (E : Env) (o : ObjectId) (now now' : Z)
    (reqs : list (request * Z)) (db : DB) :
  jose_roundtrip E ->
  (o < 2 ^ 96)%N ->
  now <= now' <= now + 7 * day ->
  find_one [("_id", VObjectId o)] (user db) <> None ->
  exists u,
    get_current_user E
      (Some ("Bearer " +:+
             create_access_token E {[ "sub" := VStr (ObjectId_str o) ]} None now))
      now' (run E reqs db)
    = Ok u
    /\ u !! "id" = Some (VStr (ObjectId_str o)).
Proof.
  intros Hjose Hid Hnow Hfind.
  assert (Hkept : find_one [("_id", VObjectId o)] (user (run E reqs db))
                  <> None).
  { apply find_one_id_In. apply find_one_id_In in Hfind. revert db Hfind.
    induction reqs as [|[req t] rest IH]; intros db Hin; cbn [run];
      [assumption|].
    apply IH. by apply serve_keeps_ids. }
  destruct (find_one [("_id", VObjectId o)] (user (run E reqs db)))
    as [u|] eqn:Hu; [|done].
  destruct (issued_token_authenticates E o u now now' (run E reqs db)
              Hjose Hid Hnow Hu) as [Hauth _].
  eexists. split; [exact Hauth|].
  by rewrite lookup_delete_ne, lookup_insert_eq.
Qed.

Lemma token_survives_requests_witness :
  exists u,
    get_current_user Sim.env
      (Some ("Bearer " +:+
             create_access_token Sim.env
               {[ "sub" := VStr (ObjectId_str 1%N) ]} None 0))
      (6 * day)
      (run Sim.env
         [(PostSubscribe (bearer (alice_token 0))
             (SubscriptionRequest.mk "pro"), day);
          (PostRegister (RegisterRequest.mk "Bob" "b@x.com" "pw2") 2%N, 2 * day);
          (PostLogin (LoginRequest.mk "b@x.com" "pw2"), 3 * day)]
         db_registered)
    = Ok u
    /\ u !! "id" = Some (VStr (ObjectId_str 1%N)).
Proof.
  apply (token_survives_requests Sim.env 1%N 0 (6 * day) _ db_registered
           sim_roundtrip).
  - reflexivity.
  - unfold day. lia.
  - by_evaluation.
Defined.
